(** * Vitest extension for VS Code: the activation wiring of [extension.ts]

    [extension.ts] is the entry point of the extension.  It owns no
    algorithm: it probes the workspace and the runner, creates the test
    controller and hands closures to the editor (handlers of the controller,
    commands, run profiles, document listeners, a reactive effect and
    disposables).  The development below embeds that file:

    - the editor side is a record [Host] of what has been registered;
    - closures are first-order values (one constructor per closure of the
      source, carrying the variables it captures) together with the
      function that runs their body;
    - calls into the collaborators of the file (discoverer, watcher,
      status bar, output channel, message boxes, ...) are recorded, in
      order, as a list of [Effect]s;
    - [activate] and its helpers are written in a small state-and-output
      monad [M] over [Host] and that list. *)

From Stdlib Require Import String List Bool.
Import ListNotations.
Local Open Scope string_scope.
Local Open Scope list_scope.

Set Implicit Arguments.

(** ** Values exchanged with the editor and the collaborators *)

(** [{ cmd: string; args: string[] }] *)
Record Cmd := mkCmd { cmd : string; args : list string }.

(** The object stored under [vitest.nodeEnv]. *)
Definition NodeEnv := list (string * string).

(** A text document, identified by its uri. *)
Definition Document := string.

Record TextEditor := mkEditor { document : Document }.

(** [vscode.TextDocumentChangeEvent]; only [e.document] is read. *)
Record TextDocumentChangeEvent := mkChange { ev_document : Document }.

(** A test item of the tree, identified by its id. *)
Definition TestItem := string.

Record TestRunRequest := mkRequest { include : option (list TestItem) }.

Inductive CancellationToken := Token.

(** The controller returned by [vscode.tests.createTestController]. *)
Record TestController := mkCtrl { ctrl_id : string; ctrl_label : string }.

(** [new TestFileDiscoverer()]: the file creates exactly one. *)
Inductive TestFileDiscoverer := NewTestFileDiscoverer.

(** The object returned by [TestWatcher.create], known by its arguments. *)
Record TestWatcher := mkWatcher {
  watcher_ctrl : TestController;
  watcher_discoverer : TestFileDiscoverer;
  watcher_cmd : Cmd }.

(** [new StatusBarItem()]. *)
Inductive StatusBarItem := NewStatusBarItem.

(** The value of [testWatcher.testStatus]; its shape is declared in
    [watch.ts] and this file only passes it on. *)
Inductive TestStatus := Status (summary : nat).

(** The three refs of the watcher read by the status-bar effect. *)
Record WatcherState := mkState {
  isRunning : bool;
  isWatching : bool;
  testStatus : TestStatus }.

(** What [WEAKMAP_TEST_DATA] associates with an item; the source only asks
    whether it is a [TestFile]. *)
Inductive TestData :=
| TestFile (path : string)
| OtherTestData (name : string).

(** The members of the [Command] enumeration used by the file. *)
Inductive Command :=
| StartWatching
| StopWatching
| ToggleWatching
| UpdateSnapshot.

Definition Command_eqb (a b : Command) : bool :=
  match a, b with
  | StartWatching, StartWatching
  | StopWatching, StopWatching
  | ToggleWatching, ToggleWatching
  | UpdateSnapshot, UpdateSnapshot => true
  | _, _ => false
  end.

(** [vscode.TestRunProfileKind], as far as the file uses it. *)
Inductive TestRunProfileKind := Run | Debug.

(** ** Closures handed to the editor *)

(** [ctrl.refreshHandler], lines 32-34. *)
Inductive RefreshHandler :=
| RefreshClosure (ctrl : TestController) (fileDiscoverer : TestFileDiscoverer).

(** [ctrl.resolveHandler], lines 36-49. *)
Inductive ResolveHandler :=
| ResolveClosure (ctrl : TestController) (fileDiscoverer : TestFileDiscoverer).

(** Callbacks given to [vscode.commands.registerCommand]. *)
Inductive CommandHandler :=
| UpdateSnapshotClosure (ctrl : TestController)   (* lines 84-86 *)
| WarningClosure (msg : string)                   (* lines 92-97 *)
| StartWatchingClosure (testWatcher : TestWatcher) (* line 157 *)
| StopWatchingClosure (testWatcher : TestWatcher)  (* line 151 *)
| ToggleWatchingClosure (testWatcher : TestWatcher). (* lines 172-177 *)

(** Callbacks given to [ctrl.createRunProfile]. *)
Inductive RunHandler :=
| WatchRunHandler (testWatcher : TestWatcher)      (* lines 187-199 *)
| BoundRunHandler (ctrl : TestController) (testWatcher : option TestWatcher)
                                                   (* line 211 *)
| BoundDebugHandler (ctrl : TestController).       (* line 218 *)

Record RunProfile := mkProfile {
  label : string;
  kind : TestRunProfileKind;
  handler : RunHandler;
  isDefault : bool }.

(** Listeners given to [onDidOpenTextDocument] and
    [onDidChangeTextDocument], lines 116-121. *)
Inductive OpenListener :=
| DiscoverOpened (ctrl : TestController) (fileDiscoverer : TestFileDiscoverer).

Inductive ChangeListener :=
| DiscoverChanged (ctrl : TestController) (fileDiscoverer : TestFileDiscoverer).

(** The function given to [effect], lines 137-149. *)
Inductive ReactiveEffect :=
| StatusBarEffect (testWatcher : TestWatcher) (statusBarItem : StatusBarItem).

(** What is pushed on [context.subscriptions]. *)
Inductive Disposable :=
| DisposeClosure (testWatcher : TestWatcher)        (* [{ dispose: stopWatching }] *)
| OfController (ctrl : TestController)
| OfDiscoverer (fileDiscoverer : TestFileDiscoverer)
| OfWatcher (testWatcher : TestWatcher)
| OfStatusBar (statusBarItem : StatusBarItem)
| OfCommand (c : Command)                           (* result of [registerCommand] *)
| OfOpenListener (l : OpenListener)
| OfChangeListener (l : ChangeListener)
| OfFileWatcher (pattern : string).                 (* from [watchAllTestFilesInWorkspace] *)

(** ** Calls into the collaborators, in the order they are made *)

Inductive Effect :=
(* './pure/isVitestEnv' and './pure/utils' *)
| Call_isVitestEnv (fsPath : string)
| Call_getVitestCommand (fsPath : string)
| Call_getVitestVersion (c : Cmd) (env : option NodeEnv)
| Call_isNodeAvailable (env : option NodeEnv)
| Call_stringToCmd (s : option string)
(* vscode *)
| Call_createTestController (id lbl : string)
| Log_appendLine (line : string)
| Window_showErrorMessage (msg : string)
| Window_showWarningMessage (msg : string)
| Console_dir (vitestVersion : option string)
| Configuration_update (section key : string) (value : option string)
| Disposable_dispose (d : Disposable)
(* './discover' *)
| Discoverer_new
| Discoverer_discoverAllTestFilesInWorkspace (ctrl : TestController)
| Discoverer_watchAllTestFilesInWorkspace (ctrl : TestController)
| Discoverer_discoverTestFromDoc (ctrl : TestController) (doc : Document)
(* './TestData' *)
| TestFile_updateFromDisk (file : TestData) (ctrl : TestController)
(* './watch' *)
| TestWatcher_create (ctrl : TestController) (d : TestFileDiscoverer) (c : Cmd)
| TestWatcher_dispose (w : TestWatcher)
| TestWatcher_watch (w : TestWatcher)
| TestWatcher_runTests (w : TestWatcher) (tests : option (list TestItem))
(* './StatusBarItem' *)
| StatusBarItem_new
| StatusBarItem_toRunningMode
| StatusBarItem_toWatchMode (s : TestStatus)
| StatusBarItem_toDefaultMode
(* './runHandler' *)
| Call_runHandler (ctrl : TestController) (w : option TestWatcher)
                  (request : TestRunRequest) (token : CancellationToken)
| Call_debugHandler (ctrl : TestController)
                    (request : TestRunRequest) (token : CancellationToken)
| Call_updateSnapshot (ctrl : TestController) (test : option TestItem).

(** ** What the editor holds for the extension *)

Record Host := mkHost {
  refreshHandler : option RefreshHandler;
  resolveHandler : option ResolveHandler;
  commands : list (Command * CommandHandler);
  runProfiles : list RunProfile;
  openListeners : list OpenListener;
  changeListeners : list ChangeListener;
  reactiveEffects : list ReactiveEffect;
  statusBarItem : option StatusBarItem;       (* the module-level [let] *)
  subscriptions : list Disposable }.

Definition emptyHost : Host :=
  mkHost None None [] [] [] [] [] None [].

(** ** The monad: registrations as state, calls as output *)

Definition M (A : Type) : Type := Host -> A * Host * list Effect.

Definition ret {A} (a : A) : M A := fun h => (a, h, []).

Definition bind {A B} (m : M A) (k : A -> M B) : M B :=
  fun h =>
    let '(a, h1, out1) := m h in
    let '(b, h2, out2) := k a h1 in
    (b, h2, out1 ++ out2).

Declare Scope m_scope.
Delimit Scope m_scope with m.
Notation "x <- c1 ;; c2" := (bind c1 (fun x => c2))
  (at level 61, c1 at next level, right associativity) : m_scope.
Notation "c1 ;; c2" := (bind c1 (fun _ => c2))
  (at level 61, right associativity) : m_scope.
Local Open Scope m_scope.

Definition emit (e : Effect) : M unit := fun h => (tt, h, [e]).

Definition update (f : Host -> Host) : M unit := fun h => (tt, f h, []).

Definition hostOf {A} (r : A * Host * list Effect) : Host := snd (fst r).
Definition traceOf {A} (r : A * Host * list Effect) : list Effect := snd r.
Definition valueOf {A} (r : A * Host * list Effect) : A := fst (fst r).

(** [xs.forEach(f)] *)
Fixpoint forEach {A} (xs : list A) (f : A -> M unit) : M unit :=
  match xs with
  | [] => ret tt
  | x :: rest => f x ;; forEach rest f
  end.

(** [a ?? b]: [b] is evaluated only when [a] is null or undefined. *)
Definition nullish {A} (a : option A) (b : M A) : M A :=
  match a with
  | Some v => ret v
  | None => b
  end.

(** ** The world the extension runs in *)

Record Config := mkConfig {
  enable : bool;
  env : option NodeEnv;
  commandLine : option string }.

(** A settled promise of [getVitestVersion]; a rejection is known by the
    text [e.toString()] of its error. *)
Inductive Settled :=
| Resolves (version : string)
| Rejects (e : string).

(** Everything the file reads from outside: the editor's workspace and
    settings, the process environment, and the answers of the imported
    helpers, each by its declared result type ([isVitestEnv] is the value
    its promise resolves to; only [getVitestVersion], whose rejection the
    file handles, may reject).  A [World] is the world at the instant of a
    call, so the same record serves for activation and for every later
    callback. *)
Record World := mkWorld {
  workspaceFolders : option (list string);      (* [uri.fsPath] of each folder *)
  getConfig : Config;
  visibleTextEditors : list TextEditor;
  process_env_PATH : option string;
  isVitestEnv : string -> bool;
  getVitestCommand : string -> option Cmd;
  getVitestVersion : Cmd -> option NodeEnv -> Settled;
  isNodeAvailable : option NodeEnv -> bool;
  watcherState : WatcherState;                  (* the watcher's refs *)
  WEAKMAP_TEST_DATA : TestItem -> option TestData;
  watchedFiles : list Disposable }.             (* what [watchAllTestFilesInWorkspace] resolves to *)

(** ** JavaScript conventions used by the file *)

(** A string is truthy when it is not empty. *)
Definition truthy (s : string) : bool :=
  match s with
  | EmptyString => false
  | String _ _ => true
  end.

(** [x || undefined] on an object-or-null value. *)
Definition orUndefined {A} (x : option A) : option A := x.

(** [`${x}`] for a string that may be undefined. *)
Definition interpolate (x : option string) : string :=
  match x with
  | Some s => s
  | None => "undefined"
  end.

(** [folders == null || folders.length === 0] *)
Definition noFolders (folders : option (list string)) : bool :=
  match folders with
  | None => true
  | Some l => Nat.eqb (length l) 0
  end.

(** [workspaceFolders[0].uri.fsPath]; only evaluated behind the guard
    [noFolders], so the last case is never taken. *)
Definition firstFolder (w : World) : string :=
  match workspaceFolders w with
  | Some (f :: _) => f
  | _ => EmptyString
  end.

(** [a && b] with [b] effectful: [b] runs only when [a] holds. *)
Definition andAlso (a : bool) (b : M bool) : M bool :=
  if a then b else ret false.

Definition quote : string :=
  String (Ascii.Ascii false true false false false true false false) EmptyString.

Definition nodeHint : string :=
  "Cannot spawn node process. Please try setting vitest.nodeEnv as {"
  ++ quote ++ "PATH" ++ quote ++ ": " ++ quote ++ "/path/to/node" ++ quote
  ++ "} in your settings.".

Definition disabledMsg : string :=
  "Because Vitest version < 0.8.0, run/debug/watch tests from Vitest extension disabled."
  ++ String (Ascii.Ascii false true false true false false false false) EmptyString.

Definition defaultCmd : Cmd := mkCmd "npx" ["vitest"].

(** ** Primitive operations on the host *)

Definition createTestController (id lbl : string) : M TestController :=
  emit (Call_createTestController id lbl) ;; ret (mkCtrl id lbl).

Definition set_refreshHandler (f : RefreshHandler) : M unit :=
  update (fun h => mkHost (Some f) (resolveHandler h) (commands h)
    (runProfiles h) (openListeners h) (changeListeners h)
    (reactiveEffects h) (statusBarItem h) (subscriptions h)).

Definition set_resolveHandler (f : ResolveHandler) : M unit :=
  update (fun h => mkHost (refreshHandler h) (Some f) (commands h)
    (runProfiles h) (openListeners h) (changeListeners h)
    (reactiveEffects h) (statusBarItem h) (subscriptions h)).

Definition registerCommand (c : Command) (f : CommandHandler) : M Disposable :=
  update (fun h => mkHost (refreshHandler h) (resolveHandler h)
    (commands h ++ [(c, f)])
    (runProfiles h) (openListeners h) (changeListeners h)
    (reactiveEffects h) (statusBarItem h) (subscriptions h)) ;;
  ret (OfCommand c).

Definition createRunProfile (lbl : string) (k : TestRunProfileKind)
    (f : RunHandler) (dflt : bool) : M unit :=
  update (fun h => mkHost (refreshHandler h) (resolveHandler h) (commands h)
    (runProfiles h ++ [mkProfile lbl k f dflt])
    (openListeners h) (changeListeners h)
    (reactiveEffects h) (statusBarItem h) (subscriptions h)).

Definition onDidOpenTextDocument (l : OpenListener) : M Disposable :=
  update (fun h => mkHost (refreshHandler h) (resolveHandler h) (commands h)
    (runProfiles h) (openListeners h ++ [l]) (changeListeners h)
    (reactiveEffects h) (statusBarItem h) (subscriptions h)) ;;
  ret (OfOpenListener l).

Definition onDidChangeTextDocument (l : ChangeListener) : M Disposable :=
  update (fun h => mkHost (refreshHandler h) (resolveHandler h) (commands h)
    (runProfiles h) (openListeners h) (changeListeners h ++ [l])
    (reactiveEffects h) (statusBarItem h) (subscriptions h)) ;;
  ret (OfChangeListener l).

Definition set_statusBarItem (s : StatusBarItem) : M unit :=
  update (fun h => mkHost (refreshHandler h) (resolveHandler h) (commands h)
    (runProfiles h) (openListeners h) (changeListeners h)
    (reactiveEffects h) (Some s) (subscriptions h)).

Definition subscriptions_push (ds : list Disposable) : M unit :=
  update (fun h => mkHost (refreshHandler h) (resolveHandler h) (commands h)
    (runProfiles h) (openListeners h) (changeListeners h)
    (reactiveEffects h) (statusBarItem h) (subscriptions h ++ ds)).

(** ** Calls of the imported helpers: the call is recorded, the world answers *)

Definition call_isVitestEnv (w : World) (p : string) : M bool :=
  emit (Call_isVitestEnv p) ;; ret (isVitestEnv w p).

Definition call_getVitestCommand (w : World) (p : string) : M (option Cmd) :=
  emit (Call_getVitestCommand p) ;; ret (getVitestCommand w p).

Definition call_getVitestVersion (w : World) (c : Cmd) (e : option NodeEnv)
    : M Settled :=
  emit (Call_getVitestVersion c e) ;; ret (getVitestVersion w c e).

Definition call_isNodeAvailable (w : World) (e : option NodeEnv) : M bool :=
  emit (Call_isNodeAvailable e) ;; ret (isNodeAvailable w e).

(** ** The closures' bodies *)

(** Lines 151-156. *)
Definition stopWatching (testWatcher : TestWatcher) : M unit :=
  emit (TestWatcher_dispose testWatcher) ;;
  emit (Configuration_update "testing" "automaticallyOpenPeekView" None).

(** Lines 157-162. *)
Definition startWatching (testWatcher : TestWatcher) : M unit :=
  emit (TestWatcher_watch testWatcher) ;;
  emit (Configuration_update "testing" "automaticallyOpenPeekView" (Some "never")).

(** Lines 172-177. *)
Definition toggleWatching (w : World) (testWatcher : TestWatcher) : M unit :=
  if isWatching (watcherState w) then stopWatching testWatcher
  else startWatching testWatcher.

(** Lines 137-149: the function given to [effect]. *)
Definition statusBarEffect (st : WatcherState) : M unit :=
  if isRunning st then emit StatusBarItem_toRunningMode
  else if isWatching st then emit (StatusBarItem_toWatchMode (testStatus st))
  else emit StatusBarItem_toDefaultMode.

(** Lines 187-199: the handler of the watch-mode profile.  Inside
    [registerWatchHandler] this local function hides the [runHandler]
    imported from './runHandler', which is [Call_runHandler] here. *)
Definition runHandler (w : World) (testWatcher : TestWatcher)
    (request : TestRunRequest) (_cancellation : CancellationToken) : M unit :=
  if noFolders (workspaceFolders w) then ret tt
  else
    emit (TestWatcher_watch testWatcher) ;;
    emit (TestWatcher_runTests testWatcher (include request)).

(** Lines 32-34. *)
Definition refresh (f : RefreshHandler) : M unit :=
  match f with
  | RefreshClosure ctrl _ =>
      emit (Discoverer_discoverAllTestFilesInWorkspace ctrl)
  end.

(** Lines 36-49. *)
Definition resolve (w : World) (f : ResolveHandler) (item : option TestItem)
    : M unit :=
  match f with
  | ResolveClosure ctrl _ =>
      match item with
      | None =>
          emit (Discoverer_watchAllTestFilesInWorkspace ctrl) ;;
          subscriptions_push (watchedFiles w)
      | Some it =>
          match WEAKMAP_TEST_DATA w it with
          | Some (TestFile p) => emit (TestFile_updateFromDisk (TestFile p) ctrl)
          | _ => ret tt
          end
      end
  end.

Definition runCommand (w : World) (f : CommandHandler) (arg : option TestItem)
    : M unit :=
  match f with
  | UpdateSnapshotClosure ctrl => emit (Call_updateSnapshot ctrl arg)
  | WarningClosure msg => emit (Window_showWarningMessage msg)
  | StartWatchingClosure tw => startWatching tw
  | StopWatchingClosure tw => stopWatching tw
  | ToggleWatchingClosure tw => toggleWatching w tw
  end.

Definition runProfileHandler (w : World) (f : RunHandler)
    (request : TestRunRequest) (token : CancellationToken) : M unit :=
  match f with
  | WatchRunHandler tw => runHandler w tw request token
  | BoundRunHandler ctrl tw => emit (Call_runHandler ctrl tw request token)
  | BoundDebugHandler ctrl => emit (Call_debugHandler ctrl request token)
  end.

Definition opened (l : OpenListener) (e : Document) : M unit :=
  match l with
  | DiscoverOpened ctrl _ => emit (Discoverer_discoverTestFromDoc ctrl e)
  end.

Definition changed (l : ChangeListener) (e : TextDocumentChangeEvent) : M unit :=
  match l with
  | DiscoverChanged ctrl _ =>
      emit (Discoverer_discoverTestFromDoc ctrl (ev_document e))
  end.

Definition rerun (w : World) (f : ReactiveEffect) : M unit :=
  match f with
  | StatusBarEffect _ _ => statusBarEffect (watcherState w)
  end.

Definition dispose (d : Disposable) : M unit :=
  match d with
  | DisposeClosure tw => stopWatching tw
  | OfWatcher tw => emit (TestWatcher_dispose tw)
  | other => emit (Disposable_dispose other)
  end.

(** ** [extension.ts] *)

Section Extension.

(** [extensionId] of './config'. *)
Variable extensionId : string.

(** [semver.gte], by its declared type [(v1, v2) => boolean]: the version
    strings the probe resolves to are taken to be ones it can compare. *)
Variable semver_gte : string -> string -> bool.

(** [stringToCmd] of './pure/utils'; the non-null assertion of the call
    site is erased at run time, so it receives what [commandLine] holds. *)
Variable stringToCmd : option string -> Cmd.

(** [JSON.stringify] on the value of [vitest.nodeEnv], as interpolated. *)
Variable JSON_stringify : option NodeEnv -> string.

Definition call_stringToCmd (s : option string) : M Cmd :=
  emit (Call_stringToCmd s) ;; ret (stringToCmd s).

(** Lines 126-202. *)
Definition registerWatchHandler (w : World) (vitestCmd : option Cmd)
    (ctrl : TestController) (fileDiscoverer : TestFileDiscoverer)
    : M (option TestWatcher) :=
  match vitestCmd with
  | None => ret None
  | Some vitestCmd =>
      emit (TestWatcher_create ctrl fileDiscoverer vitestCmd) ;;
      let testWatcher := mkWatcher ctrl fileDiscoverer vitestCmd in
      emit StatusBarItem_new ;;
      set_statusBarItem NewStatusBarItem ;;
      (* [effect(fn)] keeps [fn] and runs it once at once *)
      update (fun h => mkHost (refreshHandler h) (resolveHandler h)
        (commands h) (runProfiles h) (openListeners h) (changeListeners h)
        (reactiveEffects h ++ [StatusBarEffect testWatcher NewStatusBarItem])
        (statusBarItem h) (subscriptions h)) ;;
      statusBarEffect (watcherState w) ;;
      d1 <- registerCommand StartWatching (StartWatchingClosure testWatcher) ;;
      d2 <- registerCommand StopWatching (StopWatchingClosure testWatcher) ;;
      d3 <- registerCommand ToggleWatching (ToggleWatchingClosure testWatcher) ;;
      subscriptions_push
        [DisposeClosure testWatcher; OfWatcher testWatcher;
         OfStatusBar NewStatusBarItem; d1; d2; d3] ;;
      createRunProfile "Run Tests (Watch Mode)" Run
        (WatchRunHandler testWatcher) false ;;
      ret (Some testWatcher)
  end.

(** Lines 204-221. *)
Definition registerRunHandler (ctrl : TestController)
    (testWatcher : option TestWatcher) : M unit :=
  createRunProfile "Run Tests" Run (BoundRunHandler ctrl testWatcher) true ;;
  createRunProfile "Debug Tests" Debug (BoundDebugHandler ctrl) true.

(** Line 74: [(vitestVersion && semver.gte(vitestVersion, '0.8.0'))
    || customTestCmd], as a truth value. *)
Definition runEnabled (vitestVersion customTestCmd : option string) : bool :=
  match vitestVersion with
  | Some v => truthy v && semver_gte v "0.8.0"
  | None => false
  end
  ||
  match customTestCmd with
  | Some c => truthy c
  | None => false
  end.

(** Lines 58-69: the probe and its [catch]. *)
Definition probeVersion (w : World) (vitestCmd : Cmd) : M (option string) :=
  r <- call_getVitestVersion w vitestCmd (orUndefined (env (getConfig w))) ;;
  match r with
  | Resolves v => ret (Some v)
  | Rejects e =>
      emit (Log_appendLine e) ;;
      emit (Log_appendLine
              ("process.env.PATH = " ++ interpolate (process_env_PATH w))%string) ;;
      emit (Log_appendLine
              ("vitest.nodeEnv = " ++ JSON_stringify (env (getConfig w)))%string) ;;
      let errorMsg := e in
      available <- call_isNodeAvailable w (orUndefined (env (getConfig w))) ;;
      errorMsg <-
        (if negb available
         then emit (Log_appendLine "Cannot spawn node process") ;;
              ret (errorMsg ++ nodeHint)%string
         else ret errorMsg) ;;
      emit (Window_showErrorMessage errorMsg) ;;
      ret None
  end.

(** Lines 73-103: what is registered once the version is known. *)
Definition registerFeatures (w : World) (vitestCmd : Cmd)
    (ctrl : TestController) (fileDiscoverer : TestFileDiscoverer)
    (vitestVersion : option string) : M unit :=
  let customTestCmd := commandLine (getConfig w) in
  if runEnabled vitestVersion customTestCmd then
    c <- nullish (Some vitestCmd) (call_stringToCmd customTestCmd) ;;
    testWatcher <- registerWatchHandler w (Some c) ctrl fileDiscoverer ;;
    registerRunHandler ctrl testWatcher ;;
    d <- registerCommand UpdateSnapshot (UpdateSnapshotClosure ctrl) ;;
    subscriptions_push [d]
  else
    let msg := disabledMsg in
    d1 <- registerCommand ToggleWatching (WarningClosure msg) ;;
    d2 <- registerCommand UpdateSnapshot (WarningClosure msg) ;;
    subscriptions_push [d1; d2] ;;
    emit (Window_showWarningMessage msg).

(** Lines 105-122: discovery in the visible editors and the listeners. *)
Definition wireDocuments (w : World) (ctrl : TestController)
    (fileDiscoverer : TestFileDiscoverer) : M unit :=
  forEach (visibleTextEditors w)
    (fun x => emit (Discoverer_discoverTestFromDoc ctrl (document x))) ;;
  d1 <- onDidOpenTextDocument (DiscoverOpened ctrl fileDiscoverer) ;;
  d2 <- onDidChangeTextDocument (DiscoverChanged ctrl fileDiscoverer) ;;
  subscriptions_push [OfController ctrl; OfDiscoverer fileDiscoverer; d1; d2].

(** Lines 28-122: [activate] past its two guards. *)
Definition activated (w : World) : M unit :=
  ctrl <- createTestController extensionId "Vitest" ;;
  emit Discoverer_new ;;
  let fileDiscoverer := NewTestFileDiscoverer in
  set_refreshHandler (RefreshClosure ctrl fileDiscoverer) ;;
  set_resolveHandler (ResolveClosure ctrl fileDiscoverer) ;;
  found <- call_getVitestCommand w (firstFolder w) ;;
  vitestCmd <- nullish found (ret defaultCmd) ;;
  vitestVersion <- probeVersion w vitestCmd ;;
  emit (Console_dir vitestVersion) ;;
  registerFeatures w vitestCmd ctrl fileDiscoverer vitestVersion ;;
  wireDocuments w ctrl fileDiscoverer.

(** Lines 15-123. *)
Definition activate (w : World) : M unit :=
  if noFolders (workspaceFolders w) then ret tt
  else
    leave <- andAlso (negb (enable (getConfig w)))
               (b <- call_isVitestEnv w (firstFolder w) ;; ret (negb b)) ;;
    if leave then ret tt
    else activated w.

(** ** The editor calling back

    After [activate] the editor runs the extension's code only through
    what it was handed.  A [Stimulus] is one such occasion; [deliver]
    looks up what is registered for it and runs it. *)

Inductive Stimulus :=
| DidOpenTextDocument (e : Document)
| DidChangeTextDocument (e : TextDocumentChangeEvent)
| ExecuteCommand (c : Command) (arg : option TestItem)
| RefreshRequest
| ResolveRequest (item : option TestItem)
| RunRequest (profile : string) (request : TestRunRequest)
             (token : CancellationToken)
| ReactiveChange        (* a ref read by a registered effect was written *)
| Deactivation          (* the editor disposes [context.subscriptions] *)
| OtherEvent (name : string). (* anything else: a timer, a save, ... *)

Definition lookupCommand (c : Command) (h : Host) : option CommandHandler :=
  match find (fun p => Command_eqb (fst p) c) (commands h) with
  | Some p => Some (snd p)
  | None => None
  end.

Definition lookupProfile (lbl : string) (h : Host) : option RunProfile :=
  find (fun p => String.eqb (label p) lbl) (runProfiles h).

Definition deliver (w : World) (s : Stimulus) : M unit :=
  fun h =>
    match s with
    | DidOpenTextDocument e =>
        forEach (openListeners h) (fun l => opened l e) h
    | DidChangeTextDocument e =>
        forEach (changeListeners h) (fun l => changed l e) h
    | ExecuteCommand c arg =>
        match lookupCommand c h with
        | Some f => runCommand w f arg h
        | None => ret tt h
        end
    | RefreshRequest =>
        match refreshHandler h with
        | Some f => refresh f h
        | None => ret tt h
        end
    | ResolveRequest item =>
        match resolveHandler h with
        | Some f => resolve w f item h
        | None => ret tt h
        end
    | RunRequest lbl request token =>
        match lookupProfile lbl h with
        | Some p => runProfileHandler w (handler p) request token h
        | None => ret tt h
        end
    | ReactiveChange =>
        forEach (reactiveEffects h) (fun f => rerun w f) h
    | Deactivation =>
        forEach (subscriptions h) dispose h
    | OtherEvent _ => ret tt h
    end.

(** ** Names for what an activation yields

    The definitions below do not come from the source: they name the
    objects an activation creates and write down, in closed form, what
    the facts further down prove about it. *)

(** [activate] goes past its two guards (lines 16-26). *)
Definition proceeds (w : World) : bool :=
  negb (noFolders (workspaceFolders w))
  && (enable (getConfig w) || isVitestEnv w (firstFolder w)).

(** The controller, the command and the watcher of an activation. *)
Definition theCtrl : TestController := mkCtrl extensionId "Vitest".

Definition chosenCmd (w : World) : Cmd :=
  match getVitestCommand w (firstFolder w) with
  | Some c => c
  | None => defaultCmd
  end.

Definition theWatcher (w : World) : TestWatcher :=
  mkWatcher theCtrl NewTestFileDiscoverer (chosenCmd w).

(** The value of [vitestVersion] at line 71. *)
Definition probedVersion (w : World) : option string :=
  match getVitestVersion w (chosenCmd w) (env (getConfig w)) with
  | Resolves v => Some v
  | Rejects _ => None
  end.

(** The calls of the first guard that fails or of both guards. *)
Definition guardTrace (w : World) : list Effect :=
  if enable (getConfig w) then [] else [Call_isVitestEnv (firstFolder w)].

(** The calls of the [catch] callback for a rejection with error [e]. *)
Definition rejectionTrace (w : World) (e : string) : list Effect :=
  [Log_appendLine e;
   Log_appendLine ("process.env.PATH = " ++ interpolate (process_env_PATH w))%string;
   Log_appendLine ("vitest.nodeEnv = " ++ JSON_stringify (env (getConfig w)))%string;
   Call_isNodeAvailable (env (getConfig w))]
  ++ (if isNodeAvailable w (env (getConfig w))
      then [Window_showErrorMessage e]
      else [Log_appendLine "Cannot spawn node process";
            Window_showErrorMessage (e ++ nodeHint)%string]).

Definition probeTrace (w : World) : list Effect :=
  Call_getVitestVersion (chosenCmd w) (env (getConfig w))
  :: match getVitestVersion w (chosenCmd w) (env (getConfig w)) with
     | Resolves _ => []
     | Rejects e => rejectionTrace w e
     end.

(** The status-bar modes, and the call that enters each. *)
Inductive StatusBarMode :=
| RunningMode
| WatchMode (s : TestStatus)
| DefaultMode.

Definition enter (m : StatusBarMode) : Effect :=
  match m with
  | RunningMode => StatusBarItem_toRunningMode
  | WatchMode s => StatusBarItem_toWatchMode s
  | DefaultMode => StatusBarItem_toDefaultMode
  end.

(** The mode by priority: running, then watching, then default. *)
Definition statusBarMode (st : WatcherState) : StatusBarMode :=
  if isRunning st then RunningMode
  else if isWatching st then WatchMode (testStatus st)
  else DefaultMode.

(** The calls of lines 73-103, given the version found. *)
Definition featureTrace (w : World) (vitestVersion : option string)
    : list Effect :=
  if runEnabled vitestVersion (commandLine (getConfig w))
  then [TestWatcher_create theCtrl NewTestFileDiscoverer (chosenCmd w);
        StatusBarItem_new;
        enter (statusBarMode (watcherState w))]
  else [Window_showWarningMessage disabledMsg].

Definition discoveryTrace (w : World) : list Effect :=
  map (fun x => Discoverer_discoverTestFromDoc theCtrl (document x))
      (visibleTextEditors w).

Definition documentSubscriptions : list Disposable :=
  [OfController theCtrl; OfDiscoverer NewTestFileDiscoverer;
   OfOpenListener (DiscoverOpened theCtrl NewTestFileDiscoverer);
   OfChangeListener (DiscoverChanged theCtrl NewTestFileDiscoverer)].

(** The three profiles of an activation with the features on. *)
Definition watchProfile (w : World) : RunProfile :=
  mkProfile "Run Tests (Watch Mode)" Run (WatchRunHandler (theWatcher w)) false.

Definition runProfile (w : World) : RunProfile :=
  mkProfile "Run Tests" Run (BoundRunHandler theCtrl (Some (theWatcher w))) true.

Definition debugProfile : RunProfile :=
  mkProfile "Debug Tests" Debug (BoundDebugHandler theCtrl) true.

(** The host after an activation that found version [v]. *)
Definition hostAfter (w : World) (v : option string) : Host :=
  if runEnabled v (commandLine (getConfig w)) then
    mkHost
      (Some (RefreshClosure theCtrl NewTestFileDiscoverer))
      (Some (ResolveClosure theCtrl NewTestFileDiscoverer))
      [(StartWatching, StartWatchingClosure (theWatcher w));
       (StopWatching, StopWatchingClosure (theWatcher w));
       (ToggleWatching, ToggleWatchingClosure (theWatcher w));
       (UpdateSnapshot, UpdateSnapshotClosure theCtrl)]
      [watchProfile w; runProfile w; debugProfile]
      [DiscoverOpened theCtrl NewTestFileDiscoverer]
      [DiscoverChanged theCtrl NewTestFileDiscoverer]
      [StatusBarEffect (theWatcher w) NewStatusBarItem]
      (Some NewStatusBarItem)
      ([DisposeClosure (theWatcher w); OfWatcher (theWatcher w);
        OfStatusBar NewStatusBarItem; OfCommand StartWatching;
        OfCommand StopWatching; OfCommand ToggleWatching;
        OfCommand UpdateSnapshot] ++ documentSubscriptions)
  else
    mkHost
      (Some (RefreshClosure theCtrl NewTestFileDiscoverer))
      (Some (ResolveClosure theCtrl NewTestFileDiscoverer))
      [(ToggleWatching, WarningClosure disabledMsg);
       (UpdateSnapshot, WarningClosure disabledMsg)]
      []
      [DiscoverOpened theCtrl NewTestFileDiscoverer]
      [DiscoverChanged theCtrl NewTestFileDiscoverer]
      []
      None
      ([OfCommand ToggleWatching; OfCommand UpdateSnapshot]
       ++ documentSubscriptions).

(** The hosts of a running extension: the one [activate] leaves, and
    every host reached from it by a callback other than the final
    disposal. *)
Inductive active (w0 : World) : Host -> Prop :=
| active_init : active w0 (hostOf (activate w0 emptyHost))
| active_step h w s :
    active w0 h -> s <> Deactivation ->
    active w0 (hostOf (deliver w s h)).

(** Everything registered, the subscriptions left out. *)
Definition registrations (h : Host) :=
  (refreshHandler h, resolveHandler h, commands h, runProfiles h,
   openListeners h, changeListeners h, reactiveEffects h, statusBarItem h).




Definition isDiscoverFromDoc (e : Effect) : bool :=
  match e with
  | Discoverer_discoverTestFromDoc _ _ => true
  | _ => false
  end.

Definition isStringToCmd (e : Effect) : bool :=
  match e with
  | Call_stringToCmd _ => true
  | _ => false
  end.

Definition isWatcherCreate (e : Effect) : bool :=
  match e with
  | TestWatcher_create _ _ _ => true
  | _ => false
  end.

(** ** Names used by the further facts *)

(** The world with another value under [vitest.commandLine]. *)
Definition withCommandLine (c : option string) (w : World) : World :=
  mkWorld (workspaceFolders w)
    (mkConfig (enable (getConfig w)) (env (getConfig w)) c)
    (visibleTextEditors w) (process_env_PATH w) (isVitestEnv w)
    (getVitestCommand w) (getVitestVersion w) (isNodeAvailable w)
    (watcherState w) (WEAKMAP_TEST_DATA w) (watchedFiles w).

(** The probe of line 58 rejects. *)
Definition rejected (w : World) : bool :=
  match getVitestVersion w (chosenCmd w) (env (getConfig w)) with
  | Resolves _ => false
  | Rejects _ => true
  end.

(** The message shown at line 68. *)
Definition errorShown (w : World) : string :=
  match getVitestVersion w (chosenCmd w) (env (getConfig w)) with
  | Resolves _ => EmptyString
  | Rejects e =>
      if isNodeAvailable w (env (getConfig w)) then e else (e ++ nodeHint)%string
  end.

Definition isVitestEnvCall (e : Effect) : bool :=
  match e with
  | Call_isVitestEnv _ => true
  | _ => false
  end.

Definition isErrorReport (e : Effect) : bool :=
  match e with
  | Call_isNodeAvailable _ | Window_showErrorMessage _ => true
  | _ => false
  end.

Definition isWarning (e : Effect) : bool :=
  match e with
  | Window_showWarningMessage _ => true
  | _ => false
  end.

Definition isStatusBarCall (e : Effect) : bool :=
  match e with
  | StatusBarItem_new | StatusBarItem_toRunningMode
  | StatusBarItem_toWatchMode _ | StatusBarItem_toDefaultMode => true
  | _ => false
  end.

(** Every command and every document listener the host holds has its
    registration among the subscriptions. *)
Definition subscribed (h : Host) : Prop :=
  (forall c f, In (c, f) (commands h) -> In (OfCommand c) (subscriptions h))
  /\ (forall l, In l (openListeners h) -> In (OfOpenListener l) (subscriptions h))
  /\ (forall l, In l (changeListeners h) ->
               In (OfChangeListener l) (subscriptions h)).

(** The calls made when the editor disposes one subscription. *)
Definition disposeCalls (d : Disposable) : list Effect :=
  match d with
  | DisposeClosure tw =>
      [TestWatcher_dispose tw;
       Configuration_update "testing" "automaticallyOpenPeekView" None]
  | OfWatcher tw => [TestWatcher_dispose tw]
  | other => [Disposable_dispose other]
  end.

(** Work that [activate] leaves to the callbacks: scanning or watching the
    workspace, reading a test file, starting, running or disposing the
    watcher, running or debugging tests, updating snapshots. *)
Definition isDeferredWork (e : Effect) : bool :=
  match e with
  | Discoverer_discoverAllTestFilesInWorkspace _
  | Discoverer_watchAllTestFilesInWorkspace _
  | TestFile_updateFromDisk _ _
  | TestWatcher_dispose _ | TestWatcher_watch _ | TestWatcher_runTests _ _
  | Call_runHandler _ _ _ _ | Call_debugHandler _ _ _
  | Call_updateSnapshot _ _
  | Configuration_update _ _ _ | Disposable_dispose _ => true
  | _ => false
  end.

End Extension.

(** ** Sample worlds *)

(** A stand-in for [semver.gte] that knows a few versions. *)
Definition sample_gte (v m : string) : bool :=
  String.eqb m "0.8.0" && existsb (String.eqb v) ["0.8.0"; "0.12.3"; "0.34.6"].

Definition sample_stringToCmd (s : option string) : Cmd :=
  mkCmd (interpolate s) [].

Definition sample_stringify (e : option NodeEnv) : string :=
  match e with
  | Some _ => "{}"
  | None => "null"
  end.

(** A project with a recent runner, the extension left to detect it. *)
Definition projectWorld : World :=
  mkWorld (Some ["/proj"]) (mkConfig false None None)
    [mkEditor "/proj/a.test.ts"; mkEditor "/proj/b.ts"] (Some "/usr/bin")
    (fun _ => true) (fun _ => None) (fun _ _ => Resolves "0.12.3")
    (fun _ => true) (mkState false false (Status 0))
    (fun it => if String.eqb it "/proj/a.test.ts"
               then Some (TestFile "/proj/a.test.ts") else None)
    [OfFileWatcher "**/*.test.ts"].

(** The extension enabled by hand on a machine where nothing can be spawned. *)
Definition brokenWorld : World :=
  mkWorld (Some ["/proj"]) (mkConfig true None None)
    [mkEditor "/proj/a.test.ts"] None
    (fun _ => false) (fun _ => None)
    (fun _ _ => Rejects "Error: spawn npx ENOENT")
    (fun _ => false) (mkState false false (Status 0))
    (fun _ => None) [].

(** A window with no folder opened. *)
Definition emptyWorld : World :=
  mkWorld None (mkConfig true None None) [] None
    (fun _ => false) (fun _ => None) (fun _ _ => Resolves "0.12.3")
    (fun _ => true) (mkState false false (Status 0)) (fun _ => None) [].

Definition sample_activate : World -> M unit :=
  activate "vitest.explorer" sample_gte sample_stringToCmd sample_stringify.

Definition sample_watcher : TestWatcher :=
  mkWatcher (mkCtrl "vitest.explorer" "Vitest") NewTestFileDiscoverer defaultCmd.

(** ** Facts *)

Section Facts.

Variable extensionId : string.
Variable semver_gte : string -> string -> bool.
Variable stringToCmd : option string -> Cmd.
Variable JSON_stringify : option NodeEnv -> string.

Local Notation "'activate''" :=
  (activate extensionId semver_gte stringToCmd JSON_stringify).
Local Notation "'active''" :=
  (active extensionId semver_gte stringToCmd JSON_stringify).

Lemma forEach_emit A (f : A -> Effect) (xs : list A) (h : Host) :
  forEach xs (fun x => emit (f x)) h = (tt, h, map f xs).
Proof.
  revert h. induction xs as [|x xs IH]; intros h; [reflexivity|].
  cbn. rewrite IH. reflexivity.
Qed.

Lemma statusBarEffect_run (st : WatcherState) (h : Host) :
  statusBarEffect st h = (tt, h, [enter (statusBarMode st)]).
Proof.
  unfold statusBarEffect, statusBarMode.
  destruct (isRunning st); [reflexivity|].
  destruct (isWatching st); reflexivity.
Qed.

Lemma registerWatchHandler_run (w : World) (c : Cmd) (ctrl : TestController)
    (d : TestFileDiscoverer) (h : Host) :
  registerWatchHandler w (Some c) ctrl d h =
    (Some (mkWatcher ctrl d c),
     mkHost (refreshHandler h) (resolveHandler h)
       (commands h ++
        [(StartWatching, StartWatchingClosure (mkWatcher ctrl d c));
         (StopWatching, StopWatchingClosure (mkWatcher ctrl d c));
         (ToggleWatching, ToggleWatchingClosure (mkWatcher ctrl d c))])
       (runProfiles h ++
        [mkProfile "Run Tests (Watch Mode)" Run
           (WatchRunHandler (mkWatcher ctrl d c)) false])
       (openListeners h) (changeListeners h)
       (reactiveEffects h ++ [StatusBarEffect (mkWatcher ctrl d c) NewStatusBarItem])
       (Some NewStatusBarItem)
       (subscriptions h ++
        [DisposeClosure (mkWatcher ctrl d c); OfWatcher (mkWatcher ctrl d c);
         OfStatusBar NewStatusBarItem; OfCommand StartWatching;
         OfCommand StopWatching; OfCommand ToggleWatching]),
     [TestWatcher_create ctrl d c; StatusBarItem_new;
      enter (statusBarMode (watcherState w))]).
Proof.
  unfold registerWatchHandler.
  cbn -[statusBarEffect]. unfold bind. rewrite statusBarEffect_run. cbn.
  rewrite <- !app_assoc. reflexivity.
Qed.

Lemma probeVersion_run (w : World) (h : Host) :
  probeVersion JSON_stringify w (chosenCmd w) h =
    (probedVersion w, h, probeTrace JSON_stringify w).
Proof.
  unfold probeVersion, probedVersion, probeTrace, rejectionTrace, orUndefined.
  cbn.
  destruct (getVitestVersion w (chosenCmd w) (env (getConfig w))) as [v|e];
    [reflexivity|].
  cbn. destruct (isNodeAvailable w (env (getConfig w))); reflexivity.
Qed.

Lemma wireDocuments_run (w : World) (ctrl : TestController)
    (d : TestFileDiscoverer) (h : Host) :
  wireDocuments w ctrl d h =
    (tt,
     mkHost (refreshHandler h) (resolveHandler h) (commands h) (runProfiles h)
       (openListeners h ++ [DiscoverOpened ctrl d])
       (changeListeners h ++ [DiscoverChanged ctrl d])
       (reactiveEffects h) (statusBarItem h)
       (subscriptions h ++
        [OfController ctrl; OfDiscoverer d; OfOpenListener (DiscoverOpened ctrl d);
         OfChangeListener (DiscoverChanged ctrl d)]),
     map (fun x => Discoverer_discoverTestFromDoc ctrl (document x))
         (visibleTextEditors w)).
Proof.
  unfold wireDocuments.
  cbn -[forEach]. unfold bind. rewrite forEach_emit. cbn. rewrite app_nil_r. reflexivity.
Qed.

Lemma activated_run (w : World) :
  activated extensionId semver_gte stringToCmd JSON_stringify w emptyHost =
    (tt, hostAfter extensionId semver_gte w (probedVersion w),
     [Call_createTestController extensionId "Vitest";
      Discoverer_new;
      Call_getVitestCommand (firstFolder w)]
     ++ probeTrace JSON_stringify w
     ++ [Console_dir (probedVersion w)]
     ++ featureTrace extensionId semver_gte w (probedVersion w)
     ++ discoveryTrace extensionId w).
Proof.
  assert (Hcmd : forall h, nullish (getVitestCommand w (firstFolder w))
                               (ret defaultCmd) h = (chosenCmd w, h, [])).
  { intros h. unfold chosenCmd, nullish.
    destruct (getVitestCommand w (firstFolder w)); reflexivity. }
  unfold activated, registerFeatures, hostAfter, featureTrace, discoveryTrace.
  unfold bind. cbn -[probeVersion registerWatchHandler wireDocuments runEnabled nullish probeTrace].
  rewrite Hcmd, probeVersion_run.
  destruct (runEnabled semver_gte (probedVersion w) (commandLine (getConfig w))).
  - unfold bind. cbn -[registerWatchHandler wireDocuments probeTrace].
    rewrite registerWatchHandler_run.
    cbn -[wireDocuments probeTrace]. rewrite wireDocuments_run.
    cbn -[probeTrace]. rewrite <- ?app_assoc. reflexivity.
  - unfold bind. cbn -[wireDocuments probeTrace]. rewrite wireDocuments_run.
    cbn -[probeTrace]. rewrite <- ?app_assoc. reflexivity.
Qed.

Lemma activate_run (w : World) :
  proceeds w = true ->
  activate' w emptyHost =
    (tt, hostAfter extensionId semver_gte w (probedVersion w),
     guardTrace w
     ++ [Call_createTestController extensionId "Vitest";
         Discoverer_new;
         Call_getVitestCommand (firstFolder w)]
     ++ probeTrace JSON_stringify w
     ++ [Console_dir (probedVersion w)]
     ++ featureTrace extensionId semver_gte w (probedVersion w)
     ++ discoveryTrace extensionId w).
Proof.
  unfold proceeds, activate, guardTrace. intros H.
  destruct (noFolders (workspaceFolders w)); [discriminate|].
  cbn [negb andb] in H.
  destruct (enable (getConfig w)).
  - unfold bind. cbn -[activated]. rewrite activated_run. reflexivity.
  - cbn [orb] in H. unfold bind. cbn -[activated]. rewrite H.
    cbn -[activated]. rewrite activated_run. reflexivity.
Qed.

Lemma activate_stops (w : World) (h : Host) :
  proceeds w = false ->
  activate' w h =
    (tt, h,
     if noFolders (workspaceFolders w) then [] else guardTrace w).
Proof.
  unfold proceeds, activate, guardTrace. intros H.
  destruct (noFolders (workspaceFolders w)); [reflexivity|].
  cbn [negb andb] in H.
  destruct (enable (getConfig w)); [discriminate|].
  cbn [orb] in H. unfold bind. cbn -[activated]. rewrite H. reflexivity.
Qed.

(** *** Callbacks leave the registrations alone *)

Lemma forEach_hostOf A (f : A -> M unit) (xs : list A) :
  (forall x h, hostOf (f x h) = h) ->
  forall h, hostOf (forEach xs f h) = h.
Proof.
  intros Hf. induction xs as [|x xs IH]; intros h; [reflexivity|].
  cbn [forEach]. unfold bind.
  specialize (Hf x h). destruct (f x h) as [[u h1] o1].
  cbn in Hf. subst h1.
  specialize (IH h). destruct (forEach xs f h) as [[u' h2] o2].
  exact IH.
Qed.

Lemma stopWatching_run (tw : TestWatcher) (h : Host) :
  stopWatching tw h =
    (tt, h, [TestWatcher_dispose tw;
             Configuration_update "testing" "automaticallyOpenPeekView" None]).
Proof. reflexivity. Qed.

Lemma startWatching_run (tw : TestWatcher) (h : Host) :
  startWatching tw h =
    (tt, h, [TestWatcher_watch tw;
             Configuration_update "testing" "automaticallyOpenPeekView"
               (Some "never")]).
Proof. reflexivity. Qed.

Lemma runCommand_hostOf (w : World) (f : CommandHandler)
    (arg : option TestItem) (h : Host) :
  hostOf (runCommand w f arg h) = h.
Proof.
  destruct f; try reflexivity.
  cbn. unfold toggleWatching. destruct (isWatching (watcherState w)); reflexivity.
Qed.

Lemma runProfileHandler_hostOf (w : World) (f : RunHandler)
    (request : TestRunRequest) (token : CancellationToken) (h : Host) :
  hostOf (runProfileHandler w f request token h) = h.
Proof.
  destruct f; try reflexivity.
  cbn. unfold runHandler. destruct (noFolders (workspaceFolders w)); reflexivity.
Qed.

Lemma dispose_hostOf (d : Disposable) (h : Host) : hostOf (dispose d h) = h.
Proof. destruct d; reflexivity. Qed.

Lemma resolve_registrations (w : World) (f : ResolveHandler)
    (item : option TestItem) (h : Host) :
  registrations (hostOf (resolve w f item h)) = registrations h.
Proof.
  destruct f as [ctrl d]. destruct item as [it|]; [|reflexivity].
  cbn. destruct (WEAKMAP_TEST_DATA w it) as [[p|n]|]; reflexivity.
Qed.

Lemma deliver_registrations (w : World) (s : Stimulus) (h : Host) :
  registrations (hostOf (deliver w s h)) = registrations h.
Proof.
  destruct s; unfold deliver.
  - rewrite forEach_hostOf; [reflexivity|]. intros [c d] h'. reflexivity.
  - rewrite forEach_hostOf; [reflexivity|]. intros [c d] h'. reflexivity.
  - destruct (lookupCommand c h); [|reflexivity].
    rewrite runCommand_hostOf. reflexivity.
  - destruct (refreshHandler h) as [[c d]|]; reflexivity.
  - destruct (resolveHandler h); [|reflexivity].
    apply resolve_registrations.
  - destruct (lookupProfile profile h); [|reflexivity].
    rewrite runProfileHandler_hostOf. reflexivity.
  - rewrite forEach_hostOf; [reflexivity|]. intros [tw sb] h'.
    cbn. rewrite statusBarEffect_run. reflexivity.
  - rewrite forEach_hostOf; [reflexivity|]. apply dispose_hostOf.
  - reflexivity.
Qed.

Lemma active_registrations (w0 : World) (h : Host) :
  proceeds w0 = true ->
  active' w0 h ->
  registrations h =
    registrations (hostAfter extensionId semver_gte w0 (probedVersion w0)).
Proof.
  intros Hgo Hact. induction Hact as [|h w s Hact IH Hs].
  - rewrite (activate_run _ Hgo). reflexivity.
  - rewrite deliver_registrations. exact IH.
Qed.

(** The registrations of a running extension, field by field. *)
Lemma active_fields (w0 : World) (h : Host) :
  proceeds w0 = true ->
  active' w0 h ->
  refreshHandler h = Some (RefreshClosure (theCtrl extensionId) NewTestFileDiscoverer)
  /\ resolveHandler h = Some (ResolveClosure (theCtrl extensionId) NewTestFileDiscoverer)
  /\ openListeners h = [DiscoverOpened (theCtrl extensionId) NewTestFileDiscoverer]
  /\ changeListeners h = [DiscoverChanged (theCtrl extensionId) NewTestFileDiscoverer]
  /\ commands h = commands (hostAfter extensionId semver_gte w0 (probedVersion w0))
  /\ runProfiles h = runProfiles (hostAfter extensionId semver_gte w0 (probedVersion w0))
  /\ reactiveEffects h = reactiveEffects (hostAfter extensionId semver_gte w0 (probedVersion w0)).
Proof.
  intros Hgo Hact.
  pose proof (active_registrations Hgo Hact) as R.
  unfold registrations in R.
  injection R as R1 R2 R3 R4 R5 R6 R7 R8.
  rewrite R1, R2, R3, R4, R5, R6, R7.
  unfold hostAfter.
  destruct (runEnabled semver_gte (probedVersion w0) (commandLine (getConfig w0)));
    repeat split; reflexivity.
Qed.


(** *** Which calls an activation makes *)

Lemma filter_probeTrace (p : Effect -> bool) (w : World) :
  (forall c e, p (Call_getVitestVersion c e) = false) ->
  (forall l, p (Log_appendLine l) = false) ->
  (forall e, p (Call_isNodeAvailable e) = false) ->
  (forall m, p (Window_showErrorMessage m) = false) ->
  filter p (probeTrace JSON_stringify w) = [].
Proof.
  intros H1 H2 H3 H4. unfold probeTrace, rejectionTrace.
  destruct (getVitestVersion w (chosenCmd w) (env (getConfig w))) as [v|e];
    cbn; rewrite H1; [reflexivity|].
  rewrite !H2, H3.
  destruct (isNodeAvailable w (env (getConfig w))); cbn;
    rewrite ?H2, H4; reflexivity.
Qed.

Lemma filter_discoveryTrace_other (p : Effect -> bool) (w : World) :
  (forall c d, p (Discoverer_discoverTestFromDoc c d) = false) ->
  filter p (discoveryTrace extensionId w) = [].
Proof.
  intros H. unfold discoveryTrace.
  induction (visibleTextEditors w) as [|x xs IH]; [reflexivity|].
  cbn. rewrite H. exact IH.
Qed.

Lemma filter_discoveryTrace_self (w : World) :
  filter isDiscoverFromDoc (discoveryTrace extensionId w) =
  discoveryTrace extensionId w.
Proof.
  unfold discoveryTrace.
  induction (visibleTextEditors w) as [|x xs IH]; [reflexivity|].
  cbn. rewrite IH. reflexivity.
Qed.

Lemma filter_guardTrace (p : Effect -> bool) (w : World) :
  (forall f, p (Call_isVitestEnv f) = false) ->
  filter p (guardTrace w) = [].
Proof.
  intros H. unfold guardTrace. destruct (enable (getConfig w)); [reflexivity|].
  cbn. rewrite H. reflexivity.
Qed.

Lemma enter_not_discover (m : StatusBarMode) : isDiscoverFromDoc (enter m) = false.
Proof. destruct m; reflexivity. Qed.

Lemma enter_not_stringToCmd (m : StatusBarMode) : isStringToCmd (enter m) = false.
Proof. destruct m; reflexivity. Qed.

Lemma enter_not_create (m : StatusBarMode) : isWatcherCreate (enter m) = false.
Proof. destruct m; reflexivity. Qed.

(** *** How the host changes while the extension runs *)

Lemma active_registrations_any (w0 : World) (h : Host) :
  active' w0 h ->
  registrations h = registrations (hostOf (activate' w0 emptyHost)).
Proof.
  intros Hact. induction Hact as [|h w s Hact IH Hs]; [reflexivity|].
  rewrite deliver_registrations. exact IH.
Qed.

Lemma forEach_subscriptions A (f : A -> M unit) (xs : list A) :
  (forall x h, hostOf (f x h) = h) ->
  forall h, subscriptions (hostOf (forEach xs f h)) = subscriptions h.
Proof.
  intros Hf h. rewrite forEach_hostOf by exact Hf. reflexivity.
Qed.

Lemma deliver_subscriptions (w : World) (s : Stimulus) (h : Host) :
  exists extra,
    subscriptions (hostOf (deliver w s h)) = subscriptions h ++ extra.
Proof.
  destruct s; unfold deliver.
  - exists []. rewrite app_nil_r. apply forEach_subscriptions.
    intros [c d] h'. reflexivity.
  - exists []. rewrite app_nil_r. apply forEach_subscriptions.
    intros [c d] h'. reflexivity.
  - exists []. rewrite app_nil_r.
    destruct (lookupCommand c h); [|reflexivity].
    rewrite runCommand_hostOf. reflexivity.
  - exists []. rewrite app_nil_r.
    destruct (refreshHandler h) as [[c d]|]; reflexivity.
  - destruct (resolveHandler h) as [[c d]|].
    + destruct item as [it|].
      * exists []. rewrite app_nil_r. cbn.
        destruct (WEAKMAP_TEST_DATA w it) as [[p|n]|]; reflexivity.
      * exists (watchedFiles w). reflexivity.
    + exists []. rewrite app_nil_r. reflexivity.
  - exists []. rewrite app_nil_r.
    destruct (lookupProfile profile h); [|reflexivity].
    rewrite runProfileHandler_hostOf. reflexivity.
  - exists []. rewrite app_nil_r. apply forEach_subscriptions.
    intros [tw sb] h'. cbn. rewrite statusBarEffect_run. reflexivity.
  - exists []. rewrite app_nil_r. apply forEach_subscriptions.
    apply dispose_hostOf.
  - exists []. rewrite app_nil_r. reflexivity.
Qed.

Lemma active_subscriptions (w0 : World) (h : Host) :
  active' w0 h ->
  exists extra,
    subscriptions h = subscriptions (hostOf (activate' w0 emptyHost)) ++ extra.
Proof.
  intros Hact. induction Hact as [|h w s Hact [extra IH] Hs].
  - exists []. rewrite app_nil_r. reflexivity.
  - destruct (deliver_subscriptions w s h) as [more Hmore].
    exists (extra ++ more). rewrite Hmore, IH, app_assoc. reflexivity.
Qed.

Lemma enter_filtered (p : Effect -> bool) (m : StatusBarMode) :
  p StatusBarItem_toRunningMode = false ->
  (forall s, p (StatusBarItem_toWatchMode s) = false) ->
  p StatusBarItem_toDefaultMode = false ->
  p (enter m) = false.
Proof. intros H1 H2 H3. destruct m; cbn; auto. Qed.

Lemma filter_featureTrace (p : Effect -> bool) (w : World) (v : option string) :
  (forall c d k, p (TestWatcher_create c d k) = false) ->
  p StatusBarItem_new = false ->
  p StatusBarItem_toRunningMode = false ->
  (forall s, p (StatusBarItem_toWatchMode s) = false) ->
  p StatusBarItem_toDefaultMode = false ->
  (forall m, p (Window_showWarningMessage m) = false) ->
  filter p (featureTrace extensionId semver_gte w v) = [].
Proof.
  intros H1 H2 H3 H4 H5 H6. unfold featureTrace.
  destruct (runEnabled semver_gte v (commandLine (getConfig w))); cbn.
  - rewrite H1, H2, (enter_filtered p _ H3 H4 H5). reflexivity.
  - rewrite H6. reflexivity.
Qed.

(** *** The claims *)

(** The condition of line 74 in words: it holds exactly when the probe
    resolved to a non-empty version for which [semver.gte(v, '0.8.0')]
    holds, or [vitest.commandLine] holds a non-empty string. *)
Lemma runEnabled_iff (w : World) :
  runEnabled semver_gte (probedVersion w) (commandLine (getConfig w)) = true <->
  (exists v,
      getVitestVersion w (chosenCmd w) (env (getConfig w)) = Resolves v
      /\ v <> EmptyString /\ semver_gte v "0.8.0" = true)
  \/ (exists c, commandLine (getConfig w) = Some c /\ c <> EmptyString).
Proof.
  unfold runEnabled, probedVersion. split.
  - intros H. apply orb_true_iff in H. destruct H as [H|H].
    + left.
      destruct (getVitestVersion w (chosenCmd w) (env (getConfig w))) as [v|e];
        [|discriminate H].
      apply andb_true_iff in H. destruct H as [Hv Hge].
      exists v. split; [reflexivity|]. split; [|exact Hge].
      intros ->. discriminate Hv.
    + right. destruct (commandLine (getConfig w)) as [c|]; [|discriminate H].
      exists c. split; [reflexivity|]. intros ->. discriminate H.
  - intros [(v & Hv & Hne & Hge) | (c & Hc & Hne)].
    + rewrite Hv, Hge. destruct v as [|a v]; [contradiction|]. reflexivity.
    + rewrite Hc. destruct c as [|a c]; [contradiction|]. apply orb_true_r.
Qed.

(** C1.  An activation that goes past its guards registers the run, debug
    and watch features by this condition.  When the probe found a version
    that is at least 0.8.0 (a non-empty version string [v] with
    [semver.gte(v, '0.8.0')]), or a custom command line is set (a non-empty
    string under [vitest.commandLine]), the commands are StartWatching,
    StopWatching and ToggleWatching of the watch handler and UpdateSnapshot,
    the profiles are the watch, run and debug profiles, and the status-bar
    effect is kept.  When neither holds, the only commands are ToggleWatching
    and UpdateSnapshot, both of which show the warning, and there is no
    profile. *)
Theorem features_registered_by_condition (w : World) :
  proceeds w = true ->
  let h := hostOf (activate' w emptyHost) in
  let ctrl := mkCtrl extensionId "Vitest" in
  let tw := mkWatcher ctrl NewTestFileDiscoverer (chosenCmd w) in
  let versionAtLeast_0_8_0 :=
    exists v,
      getVitestVersion w (chosenCmd w) (env (getConfig w)) = Resolves v
      /\ v <> EmptyString /\ semver_gte v "0.8.0" = true in
  let commandLineSet :=
    exists c, commandLine (getConfig w) = Some c /\ c <> EmptyString in
  (versionAtLeast_0_8_0 \/ commandLineSet ->
     commands h =
       [(StartWatching, StartWatchingClosure tw);
        (StopWatching, StopWatchingClosure tw);
        (ToggleWatching, ToggleWatchingClosure tw);
        (UpdateSnapshot, UpdateSnapshotClosure ctrl)]
     /\ runProfiles h =
          [mkProfile "Run Tests (Watch Mode)" Run (WatchRunHandler tw) false;
           mkProfile "Run Tests" Run (BoundRunHandler ctrl (Some tw)) true;
           mkProfile "Debug Tests" Debug (BoundDebugHandler ctrl) true]
     /\ reactiveEffects h = [StatusBarEffect tw NewStatusBarItem])
  /\ (~ (versionAtLeast_0_8_0 \/ commandLineSet) ->
       commands h =
         [(ToggleWatching, WarningClosure disabledMsg);
          (UpdateSnapshot, WarningClosure disabledMsg)]
       /\ runProfiles h = []
       /\ reactiveEffects h = []
       /\ forall w' arg,
            traceOf (deliver w' (ExecuteCommand ToggleWatching arg) h) =
              [Window_showWarningMessage disabledMsg]
            /\ traceOf (deliver w' (ExecuteCommand UpdateSnapshot arg) h) =
                 [Window_showWarningMessage disabledMsg]).
Proof.
  intros Hgo. cbv zeta. rewrite (activate_run _ Hgo).
  unfold hostOf, hostAfter. cbn [fst snd].
  pose proof (runEnabled_iff w) as Hiff.
  destruct (runEnabled semver_gte (probedVersion w) (commandLine (getConfig w))).
  - split.
    + intros _. repeat split.
    + intros Hnot. exfalso. apply Hnot. apply Hiff. reflexivity.
  - split.
    + intros Hcond. apply Hiff in Hcond. discriminate Hcond.
    + intros _. repeat split.
Qed.

(** C2.  The function given to [effect] puts the status bar in the mode
    that the watcher's state selects by priority, whatever the host and
    whatever mode came before: running when [isRunning], else watch mode
    with [testStatus] when [isWatching], else default.  It makes exactly
    that one call, and so does every re-run of the registered effect. *)
Theorem statusBar_mode_by_priority (st : WatcherState) (h : Host) :
  traceOf (statusBarEffect st h) = [enter (statusBarMode st)]
  /\ hostOf (statusBarEffect st h) = h
  /\ forall w tw sb,
       traceOf (rerun w (StatusBarEffect tw sb) h) =
         [enter (if isRunning (watcherState w) then RunningMode
                 else if isWatching (watcherState w)
                      then WatchMode (testStatus (watcherState w))
                      else DefaultMode)].
Proof.
  split; [|split].
  - rewrite statusBarEffect_run. reflexivity.
  - rewrite statusBarEffect_run. reflexivity.
  - intros w tw sb. cbn [rerun]. rewrite statusBarEffect_run. reflexivity.
Qed.

(** C3.  When the version probe rejects with error [e], activation goes
    on to its end.  The error, the PATH and the node environment are
    appended to the log; when no node process can be spawned one more
    line is logged and the hint is appended to the message; the message
    is shown as an error; and the rest of the activation is the one for
    an undefined version. *)
Theorem probe_rejection_is_reported (w : World) (e : string) :
  proceeds w = true ->
  getVitestVersion w (chosenCmd w) (env (getConfig w)) = Rejects e ->
  activate' w emptyHost =
    (tt, hostAfter extensionId semver_gte w None,
     guardTrace w
     ++ [Call_createTestController extensionId "Vitest";
         Discoverer_new;
         Call_getVitestCommand (firstFolder w);
         Call_getVitestVersion (chosenCmd w) (env (getConfig w));
         Log_appendLine e;
         Log_appendLine
           ("process.env.PATH = " ++ interpolate (process_env_PATH w))%string;
         Log_appendLine
           ("vitest.nodeEnv = " ++ JSON_stringify (env (getConfig w)))%string;
         Call_isNodeAvailable (env (getConfig w))]
     ++ (if isNodeAvailable w (env (getConfig w))
         then [Window_showErrorMessage e]
         else [Log_appendLine "Cannot spawn node process";
               Window_showErrorMessage (e ++ nodeHint)%string])
     ++ [Console_dir None]
     ++ featureTrace extensionId semver_gte w None
     ++ discoveryTrace extensionId w).
Proof.
  intros Hgo Hrej. rewrite (activate_run _ Hgo).
  unfold probedVersion, probeTrace, rejectionTrace. rewrite Hrej.
  repeat f_equal.
Qed.

(** C4.  During an activation that goes past its guards,
    [discoverTestFromDoc] is called once for each visible editor, with
    that editor's document, and for nothing else.  While the extension
    runs, an opened document is handed to [discoverTestFromDoc], and so
    is the document of every change event. *)
Theorem documents_reach_the_discoverer (w0 : World) :
  proceeds w0 = true ->
  filter isDiscoverFromDoc (traceOf (activate' w0 emptyHost)) =
    map (fun x => Discoverer_discoverTestFromDoc
                    (mkCtrl extensionId "Vitest") (document x))
        (visibleTextEditors w0)
  /\ forall h, active' w0 h ->
       forall (w : World) (doc : Document),
         traceOf (deliver w (DidOpenTextDocument doc) h) =
           [Discoverer_discoverTestFromDoc (mkCtrl extensionId "Vitest") doc]
         /\ traceOf (deliver w (DidChangeTextDocument (mkChange doc)) h) =
              [Discoverer_discoverTestFromDoc (mkCtrl extensionId "Vitest") doc].
Proof.
  intros Hgo. split.
  - rewrite (activate_run _ Hgo). unfold traceOf. cbn [snd].
    rewrite !filter_app.
    rewrite filter_guardTrace by reflexivity.
    rewrite filter_probeTrace by reflexivity.
    rewrite filter_discoveryTrace_self.
    unfold featureTrace.
    destruct (runEnabled semver_gte (probedVersion w0) (commandLine (getConfig w0)));
      cbn; rewrite ?enter_not_discover; reflexivity.
  - intros h Hact w doc.
    destruct (active_fields Hgo Hact) as (_ & _ & Ho & Hc & _).
    unfold deliver. rewrite Ho, Hc. split; reflexivity.
Qed.

(** C5.  While the extension runs, a refresh request makes the discoverer
    discover all test files of the workspace.  A resolve request without
    an item makes it watch all test files and pushes what that returns on
    the subscriptions.  A resolve request for an item whose data is a
    [TestFile] updates that file from disk; for any other item nothing is
    called and nothing changes. *)
Theorem controller_handlers (w0 : World) (h : Host) :
  proceeds w0 = true ->
  active' w0 h ->
  forall w : World,
    deliver w RefreshRequest h =
      (tt, h, [Discoverer_discoverAllTestFilesInWorkspace
                 (mkCtrl extensionId "Vitest")])
    /\ traceOf (deliver w (ResolveRequest None) h) =
         [Discoverer_watchAllTestFilesInWorkspace (mkCtrl extensionId "Vitest")]
    /\ subscriptions (hostOf (deliver w (ResolveRequest None) h)) =
         subscriptions h ++ watchedFiles w
    /\ forall item : TestItem,
         deliver w (ResolveRequest (Some item)) h =
           (tt, h,
            match WEAKMAP_TEST_DATA w item with
            | Some (TestFile p) =>
                [TestFile_updateFromDisk (TestFile p) (mkCtrl extensionId "Vitest")]
            | Some (OtherTestData _) => []
            | None => []
            end).
Proof.
  intros Hgo Hact w.
  destruct (active_fields Hgo Hact) as (Hf & Hr & _).
  unfold deliver. rewrite Hf, Hr. repeat split.
  intros item. cbn.
  destruct (WEAKMAP_TEST_DATA w item) as [[p|n]|]; reflexivity.
Qed.

(** C6.  With the features on, a run request on the profile
    'Run Tests (Watch Mode)' calls [watch()] of the watcher and then
    [runTests] with the tests the request includes, when the workspace
    has a folder at that moment; with no folder it calls nothing.  The
    registrations stay as they are. *)
Theorem watch_profile_request (w0 : World) (h : Host) :
  proceeds w0 = true ->
  runEnabled semver_gte (probedVersion w0) (commandLine (getConfig w0)) = true ->
  active' w0 h ->
  forall (w : World) (request : TestRunRequest) (token : CancellationToken),
    deliver w (RunRequest "Run Tests (Watch Mode)" request token) h =
      (tt, h,
       match workspaceFolders w with
       | None => []
       | Some [] => []
       | Some (_ :: _) =>
           [TestWatcher_watch
              (mkWatcher (mkCtrl extensionId "Vitest") NewTestFileDiscoverer
                 (chosenCmd w0));
            TestWatcher_runTests
              (mkWatcher (mkCtrl extensionId "Vitest") NewTestFileDiscoverer
                 (chosenCmd w0))
              (include request)]
       end).
Proof.
  intros Hgo Hon Hact w request token.
  destruct (active_fields Hgo Hact) as (_ & _ & _ & _ & _ & Hp & _).
  unfold deliver, lookupProfile. rewrite Hp.
  unfold hostAfter. rewrite Hon. cbn. unfold runHandler, noFolders.
  destruct (workspaceFolders w) as [[|f fs]|]; reflexivity.
Qed.

(** C7.  With the features on, the profile 'Run Tests' is a default
    profile of kind Run whose handler is [runHandler] bound to the
    controller and to the watcher, 'Debug Tests' is a default profile of
    kind Debug whose handler is [debugHandler] bound to the controller,
    and a run request on either is passed to that handler with the
    request and the token. *)
Theorem oneshot_profiles (w0 : World) (h : Host) :
  proceeds w0 = true ->
  runEnabled semver_gte (probedVersion w0) (commandLine (getConfig w0)) = true ->
  active' w0 h ->
  let ctrl := mkCtrl extensionId "Vitest" in
  let tw := mkWatcher ctrl NewTestFileDiscoverer (chosenCmd w0) in
  lookupProfile "Run Tests" h =
    Some (mkProfile "Run Tests" Run (BoundRunHandler ctrl (Some tw)) true)
  /\ lookupProfile "Debug Tests" h =
       Some (mkProfile "Debug Tests" Debug (BoundDebugHandler ctrl) true)
  /\ forall (w : World) (request : TestRunRequest) (token : CancellationToken),
       deliver w (RunRequest "Run Tests" request token) h =
         (tt, h, [Call_runHandler ctrl (Some tw) request token])
       /\ deliver w (RunRequest "Debug Tests" request token) h =
            (tt, h, [Call_debugHandler ctrl request token]).
Proof.
  intros Hgo Hon Hact. cbv zeta.
  destruct (active_fields Hgo Hact) as (_ & _ & _ & _ & _ & Hp & _).
  unfold deliver, lookupProfile. rewrite Hp.
  unfold hostAfter. rewrite Hon. repeat split.
Qed.


(** C9.  When the workspace has no folder, or when the extension is not
    enabled and the first folder is not a Vitest environment, [activate]
    leaves the host as it found it and calls nothing but, in the second
    case, [isVitestEnv]: no controller is created, no version is probed,
    nothing is registered. *)
Theorem activate_is_noop_off_guard (w : World) (h : Host) :
  workspaceFolders w = None
  \/ workspaceFolders w = Some []
  \/ (enable (getConfig w) = false /\ isVitestEnv w (firstFolder w) = false) ->
  hostOf (activate' w h) = h
  /\ incl (traceOf (activate' w h)) [Call_isVitestEnv (firstFolder w)]
  /\ (noFolders (workspaceFolders w) = true -> traceOf (activate' w h) = []).
Proof.
  intros H.
  assert (Hstop : proceeds w = false).
  { unfold proceeds. destruct H as [H | [H | [H1 H2]]].
    - rewrite H. reflexivity.
    - rewrite H. reflexivity.
    - rewrite H1, H2. apply andb_false_r. }
  rewrite (activate_stops _ _ Hstop). unfold hostOf, traceOf. cbn [fst snd].
  split; [reflexivity|]. split.
  - unfold guardTrace.
    destruct (noFolders (workspaceFolders w)); [apply incl_nil_l|].
    destruct (enable (getConfig w)); [apply incl_nil_l|apply incl_refl].
  - intros Hn. rewrite Hn. reflexivity.
Qed.

(** C10.  No activation ever calls [stringToCmd].  An activation that
    goes past its guards with the condition of line 74 true creates the
    watcher exactly once, on the command found by [getVitestCommand] or
    else on [npx vitest], and binds the run handler to that watcher;
    [registerWatchHandler], given that command, returns the watcher.
    Every other activation creates no watcher. *)
Theorem watch_command_is_never_custom (w : World) :
  let trace := traceOf (activate' w emptyHost) in
  let ctrl := mkCtrl extensionId "Vitest" in
  let c := match getVitestCommand w (firstFolder w) with
           | Some found => found
           | None => mkCmd "npx" ["vitest"]
           end in
  filter isStringToCmd trace = []
  /\ if proceeds w
        && runEnabled semver_gte (probedVersion w) (commandLine (getConfig w))
     then
       filter isWatcherCreate trace = [TestWatcher_create ctrl NewTestFileDiscoverer c]
       /\ lookupProfile "Run Tests" (hostOf (activate' w emptyHost)) =
            Some (mkProfile "Run Tests" Run
                    (BoundRunHandler ctrl
                       (Some (mkWatcher ctrl NewTestFileDiscoverer c))) true)
       /\ forall h,
            valueOf (registerWatchHandler w (Some c) ctrl NewTestFileDiscoverer h) =
              Some (mkWatcher ctrl NewTestFileDiscoverer c)
     else filter isWatcherCreate trace = [].
Proof.
  cbv zeta. fold (chosenCmd w).
  destruct (proceeds w) eqn:Hgo.
  - rewrite (activate_run _ Hgo). unfold traceOf, hostOf. cbn [fst snd andb].
    rewrite !filter_app.
    rewrite !filter_guardTrace by reflexivity.
    rewrite !filter_probeTrace by reflexivity.
    rewrite !filter_discoveryTrace_other by reflexivity.
    unfold featureTrace, hostAfter.
    destruct (runEnabled semver_gte (probedVersion w) (commandLine (getConfig w))).
    + cbn -[registerWatchHandler].
      rewrite enter_not_stringToCmd, enter_not_create.
      repeat split.
      intros h. rewrite registerWatchHandler_run. reflexivity.
    + cbn. split; reflexivity.
  - rewrite (activate_stops _ _ Hgo). unfold traceOf. cbn [fst snd andb].
    unfold guardTrace.
    destruct (noFolders (workspaceFolders w)); [split; reflexivity|].
    destruct (enable (getConfig w)); split; reflexivity.
Qed.

(** *** Further facts *)

(** X1.  On every host of a running extension no command id is registered
    twice and no two run profiles carry the same label, whichever branch of
    line 74 was taken. *)
Theorem registrations_are_unique (w0 : World) (h : Host) :
  active' w0 h ->
  NoDup (map fst (commands h)) /\ NoDup (map label (runProfiles h)).
Proof.
  intros Hact. pose proof (active_registrations_any Hact) as R.
  unfold registrations in R. injection R as _ _ Hc Hp _ _ _ _.
  rewrite Hc, Hp. clear Hc Hp.
  destruct (proceeds w0) eqn:Hgo.
  - rewrite (activate_run _ Hgo). unfold hostOf, hostAfter. cbn [fst snd].
    destruct (runEnabled semver_gte (probedVersion w0) (commandLine (getConfig w0)));
      cbn; split;
      repeat (constructor; [cbn; intuition discriminate|]); constructor.
  - rewrite (activate_stops _ _ Hgo). cbn. split; constructor.
Qed.

(** X2.  While the extension runs the subscriptions only grow: those
    pushed by [activate] stay in front, in order.  And every command and
    every document listener the host holds has the disposable returned by
    its registration among the subscriptions. *)
Theorem registrations_are_subscribed (w0 : World) (h : Host) :
  active' w0 h ->
  (exists extra,
      subscriptions h = subscriptions (hostOf (activate' w0 emptyHost)) ++ extra)
  /\ subscribed h.
Proof.
  intros Hact. pose proof (active_subscriptions Hact) as [extra Hs].
  split; [exists extra; exact Hs|].
  pose proof (active_registrations_any Hact) as R.
  unfold registrations in R. injection R as _ _ Hc _ Ho Hch _ _.
  unfold subscribed. rewrite Hs, Hc, Ho, Hch. clear Hs Hc Ho Hch.
  destruct (proceeds w0) eqn:Hgo.
  - rewrite (activate_run _ Hgo). unfold hostOf, hostAfter. cbn [fst snd].
    destruct (runEnabled semver_gte (probedVersion w0) (commandLine (getConfig w0)));
      cbn [commands openListeners changeListeners subscriptions];
      (split; [|split]).
    all: intros; apply in_or_app; left; cbn in *.
    all: repeat match goal with
                | H : _ \/ _ |- _ => destruct H
                | H : False |- _ => destruct H
                | H : (_, _) = (_, _) |- _ => injection H as <- <-
                | H : _ = _ |- _ => subst
                end; cbn; tauto.
  - rewrite (activate_stops _ _ Hgo). cbn. split; [|split]; intros; contradiction.
Qed.

(** X3.  When the editor disposes the subscriptions of an extension just
    activated, going through the array from its front, they are disposed in
    the order they were pushed.  With the
    features on, [stopWatching] runs first (it disposes the watcher and
    clears [testing.automaticallyOpenPeekView]), then the watcher is
    disposed a second time as a subscription of its own, then the status
    bar, the commands, the controller, the discoverer and the listeners.
    With the features off only the two commands, the controller, the
    discoverer and the listeners are disposed. *)
Theorem deactivation_disposes_in_order (w0 : World) :
  proceeds w0 = true ->
  forall w : World,
    let ctrl := mkCtrl extensionId "Vitest" in
    let tw := mkWatcher ctrl NewTestFileDiscoverer (chosenCmd w0) in
    let documents :=
      [Disposable_dispose (OfController ctrl);
       Disposable_dispose (OfDiscoverer NewTestFileDiscoverer);
       Disposable_dispose (OfOpenListener (DiscoverOpened ctrl NewTestFileDiscoverer));
       Disposable_dispose (OfChangeListener (DiscoverChanged ctrl NewTestFileDiscoverer))] in
    traceOf (deliver w Deactivation (hostOf (activate' w0 emptyHost))) =
      if runEnabled semver_gte (probedVersion w0) (commandLine (getConfig w0))
      then
        [TestWatcher_dispose tw;
         Configuration_update "testing" "automaticallyOpenPeekView" None;
         TestWatcher_dispose tw;
         Disposable_dispose (OfStatusBar NewStatusBarItem);
         Disposable_dispose (OfCommand StartWatching);
         Disposable_dispose (OfCommand StopWatching);
         Disposable_dispose (OfCommand ToggleWatching);
         Disposable_dispose (OfCommand UpdateSnapshot)] ++ documents
      else
        [Disposable_dispose (OfCommand ToggleWatching);
         Disposable_dispose (OfCommand UpdateSnapshot)] ++ documents.
Proof.
  intros Hgo w. cbv zeta. rewrite (activate_run _ Hgo).
  unfold hostOf, hostAfter. cbn [fst snd].
  destruct (runEnabled semver_gte (probedVersion w0) (commandLine (getConfig w0)));
    reflexivity.
Qed.

(** X4.  With the features on, the command ToggleWatching does what
    StopWatching does when the watcher is watching at that moment and what
    StartWatching does otherwise.  StartWatching calls [watch()] and sets
    [testing.automaticallyOpenPeekView] to 'never'; StopWatching disposes
    the watcher and clears that setting.  None of them reads its argument
    or changes what is registered. *)
Theorem toggle_is_start_or_stop (w0 : World) (h : Host) :
  proceeds w0 = true ->
  runEnabled semver_gte (probedVersion w0) (commandLine (getConfig w0)) = true ->
  active' w0 h ->
  forall (w : World) (arg : option TestItem),
    let tw := mkWatcher (mkCtrl extensionId "Vitest") NewTestFileDiscoverer
                (chosenCmd w0) in
    deliver w (ExecuteCommand ToggleWatching arg) h =
      deliver w (ExecuteCommand
                   (if isWatching (watcherState w) then StopWatching
                    else StartWatching) None) h
    /\ deliver w (ExecuteCommand StartWatching arg) h =
         (tt, h,
          [TestWatcher_watch tw;
           Configuration_update "testing" "automaticallyOpenPeekView"
             (Some "never")])
    /\ deliver w (ExecuteCommand StopWatching arg) h =
         (tt, h,
          [TestWatcher_dispose tw;
           Configuration_update "testing" "automaticallyOpenPeekView" None]).
Proof.
  intros Hgo Hon Hact w arg. cbv zeta.
  destruct (active_fields Hgo Hact) as (_ & _ & _ & _ & Hc & _).
  unfold deliver, lookupCommand. rewrite Hc.
  unfold hostAfter. rewrite Hon. cbn. unfold toggleWatching.
  destruct (isWatching (watcherState w)); repeat split.
Qed.

(** X5.  The text under [vitest.commandLine] never matters to [activate],
    only whether it is a non-empty string: two worlds that differ in that
    setting alone, both with a non-empty command line or both with an empty
    or absent one, get the same calls and the same registrations from any
    host. *)
Theorem commandLine_text_is_ignored (c1 c2 : option string) (w : World)
    (h : Host) :
  match c1 with Some s => truthy s | None => false end =
  match c2 with Some s => truthy s | None => false end ->
  activate' (withCommandLine c1 w) h = activate' (withCommandLine c2 w) h.
Proof.
  destruct c1 as [[|a1 s1]|], c2 as [[|a2 s2]|]; cbn [truthy]; intros Hsame;
    try discriminate Hsame; reflexivity.
Qed.

(** X6.  [activate] asks [isVitestEnv] at most once, about the first
    folder, and only when the workspace has a folder and the extension is
    not enabled by its setting; with the setting on, or without a folder,
    it never asks. *)
Theorem isVitestEnv_asked_only_when_needed (w : World) :
  filter isVitestEnvCall (traceOf (activate' w emptyHost)) =
    if noFolders (workspaceFolders w) || enable (getConfig w)
    then []
    else [Call_isVitestEnv (firstFolder w)].
Proof.
  destruct (proceeds w) eqn:Hgo.
  - rewrite (activate_run _ Hgo). unfold traceOf. cbn [snd].
    rewrite !filter_app.
    rewrite filter_probeTrace by reflexivity.
    rewrite filter_featureTrace by reflexivity.
    rewrite filter_discoveryTrace_other by reflexivity.
    unfold proceeds in Hgo. unfold guardTrace.
    destruct (noFolders (workspaceFolders w)); [discriminate|].
    destruct (enable (getConfig w)); reflexivity.
  - rewrite (activate_stops _ _ Hgo). unfold traceOf, guardTrace. cbn [snd].
    destruct (noFolders (workspaceFolders w)); [reflexivity|].
    destruct (enable (getConfig w)); reflexivity.
Qed.

(** X7.  [activate] checks whether node can be spawned, and shows an error
    message, exactly when it reaches the version probe and the probe
    rejects; it then does each once, the check first, and the message is
    the error text, followed by the hint when node cannot be spawned.  When
    the probe resolves, or a guard stops the activation, it does neither. *)
Theorem error_reported_only_on_rejection (w : World) :
  filter isErrorReport (traceOf (activate' w emptyHost)) =
    if proceeds w && rejected w
    then [Call_isNodeAvailable (env (getConfig w));
          Window_showErrorMessage (errorShown w)]
    else [].
Proof.
  destruct (proceeds w) eqn:Hgo; cbn [andb].
  - rewrite (activate_run _ Hgo). unfold traceOf. cbn [snd].
    rewrite !filter_app.
    rewrite filter_guardTrace by reflexivity.
    rewrite filter_featureTrace by reflexivity.
    rewrite filter_discoveryTrace_other by reflexivity.
    unfold probeTrace, rejectionTrace, rejected, errorShown.
    destruct (getVitestVersion w (chosenCmd w) (env (getConfig w))) as [v|e];
      [reflexivity|].
    destruct (isNodeAvailable w (env (getConfig w))); reflexivity.
  - rewrite (activate_stops _ _ Hgo). unfold traceOf, guardTrace. cbn [snd].
    destruct (noFolders (workspaceFolders w)); [reflexivity|].
    destruct (enable (getConfig w)); reflexivity.
Qed.

(** X8.  During [activate] the warning that run, debug and watch are
    disabled is shown exactly when the activation goes past its guards and
    the condition of line 74 is false, and then once; no other warning is
    ever shown. *)
Theorem warning_shown_iff_disabled (w : World) :
  filter isWarning (traceOf (activate' w emptyHost)) =
    if proceeds w
       && negb (runEnabled semver_gte (probedVersion w) (commandLine (getConfig w)))
    then [Window_showWarningMessage disabledMsg]
    else [].
Proof.
  destruct (proceeds w) eqn:Hgo; cbn [andb].
  - rewrite (activate_run _ Hgo). unfold traceOf. cbn [snd].
    rewrite !filter_app.
    rewrite filter_guardTrace by reflexivity.
    rewrite filter_probeTrace by reflexivity.
    rewrite filter_discoveryTrace_other by reflexivity.
    unfold featureTrace.
    destruct (runEnabled semver_gte (probedVersion w) (commandLine (getConfig w)));
      cbn; [|reflexivity].
    rewrite enter_filtered by reflexivity. reflexivity.
  - rewrite (activate_stops _ _ Hgo). unfold traceOf, guardTrace. cbn [snd].
    destruct (noFolders (workspaceFolders w)); [reflexivity|].
    destruct (enable (getConfig w)); reflexivity.
Qed.

(** X9.  [activate] touches the status bar exactly when it registers the
    watch handler: it then creates the item and, because [effect] runs its
    function once when it is given, puts it at once in the mode of the
    watcher's state at that moment.  In every other activation the status
    bar is neither created nor called. *)
Theorem statusBar_initialised_with_watcher (w : World) :
  filter isStatusBarCall (traceOf (activate' w emptyHost)) =
    if proceeds w
       && runEnabled semver_gte (probedVersion w) (commandLine (getConfig w))
    then [StatusBarItem_new;
          if isRunning (watcherState w) then StatusBarItem_toRunningMode
          else if isWatching (watcherState w)
               then StatusBarItem_toWatchMode (testStatus (watcherState w))
               else StatusBarItem_toDefaultMode]
    else [].
Proof.
  destruct (proceeds w) eqn:Hgo; cbn [andb].
  - rewrite (activate_run _ Hgo). unfold traceOf. cbn [snd].
    rewrite !filter_app.
    rewrite filter_guardTrace by reflexivity.
    rewrite filter_probeTrace by reflexivity.
    rewrite filter_discoveryTrace_other by reflexivity.
    unfold featureTrace, statusBarMode.
    destruct (runEnabled semver_gte (probedVersion w) (commandLine (getConfig w)));
      [|reflexivity].
    destruct (isRunning (watcherState w)); [reflexivity|].
    destruct (isWatching (watcherState w)); reflexivity.
  - rewrite (activate_stops _ _ Hgo). unfold traceOf, guardTrace. cbn [snd].
    destruct (noFolders (workspaceFolders w)); [reflexivity|].
    destruct (enable (getConfig w)); reflexivity.
Qed.

(** X10.  With the features off, a running extension has nothing behind
    StartWatching and StopWatching, behind any run request, or behind a
    change of reactive state: each of them calls nothing and changes
    nothing. *)
Theorem disabled_features_are_inert (w0 : World) (h : Host) :
  proceeds w0 = true ->
  runEnabled semver_gte (probedVersion w0) (commandLine (getConfig w0)) = false ->
  active' w0 h ->
  forall w : World,
    (forall arg, deliver w (ExecuteCommand StartWatching arg) h = (tt, h, []))
    /\ (forall arg, deliver w (ExecuteCommand StopWatching arg) h = (tt, h, []))
    /\ (forall profile request token,
          deliver w (RunRequest profile request token) h = (tt, h, []))
    /\ deliver w ReactiveChange h = (tt, h, []).
Proof.
  intros Hgo Hoff Hact w.
  destruct (active_fields Hgo Hact) as (_ & _ & _ & _ & Hc & Hp & He).
  unfold deliver, lookupCommand, lookupProfile. rewrite Hc, Hp, He.
  unfold hostAfter. rewrite Hoff. repeat split.
Qed.

(** X11.  What [watchAllTestFilesInWorkspace] returned on a resolve
    request without an item is disposed with the extension: after such a
    request, the disposal of the subscriptions makes the calls it would
    have made before, and then disposes each returned object, in order. *)
Theorem watched_files_are_disposed (w0 : World) (h : Host) :
  proceeds w0 = true ->
  active' w0 h ->
  forall w1 w : World,
    traceOf (deliver w Deactivation
               (hostOf (deliver w1 (ResolveRequest None) h))) =
    traceOf (deliver w Deactivation h)
    ++ flat_map disposeCalls (watchedFiles w1).
Proof.
  intros Hgo Hact w1 w.
  destruct (active_fields Hgo Hact) as (_ & Hr & _).
  assert (Hall : forall ds h', traceOf (forEach ds dispose h') =
                               flat_map disposeCalls ds).
  { induction ds as [|d ds IH]; intros h'; [reflexivity|].
    cbn [forEach flat_map]. unfold bind.
    pose proof (dispose_hostOf d h') as Hd.
    assert (Hc : traceOf (dispose d h') = disposeCalls d)
      by (destruct d; reflexivity).
    destruct (dispose d h') as [[u h1] o1]. cbn in Hd, Hc. subst h1 o1.
    specialize (IH h'). destruct (forEach ds dispose h') as [[u' h2] o2].
    cbn in IH. subst o2. reflexivity. }
  unfold deliver at 1 3. rewrite !Hall.
  unfold deliver. rewrite Hr. cbn [resolve]. cbn.
  rewrite flat_map_app. reflexivity.
Qed.

(** X12.  [activate] only prepares: whatever the world, it never scans or
    watches the workspace, never reads a test file, never starts, runs or
    disposes the watcher, never runs or debugs a test, never updates a
    snapshot, never writes a setting and never disposes anything.  All of
    that is left to the callbacks. *)
Theorem activate_defers_the_work (w : World) :
  filter isDeferredWork (traceOf (activate' w emptyHost)) = [].
Proof.
  destruct (proceeds w) eqn:Hgo.
  - rewrite (activate_run _ Hgo). unfold traceOf. cbn [snd].
    rewrite !filter_app.
    rewrite filter_guardTrace by reflexivity.
    rewrite filter_probeTrace by reflexivity.
    rewrite filter_featureTrace by reflexivity.
    rewrite filter_discoveryTrace_other by reflexivity.
    reflexivity.
  - rewrite (activate_stops _ _ Hgo). unfold traceOf, guardTrace. cbn [snd].
    destruct (noFolders (workspaceFolders w)); [reflexivity|].
    destruct (enable (getConfig w)); reflexivity.
Qed.

End Facts.

(** ** The facts at the sample worlds *)

Lemma features_registered_by_condition_witness :
  (proceeds projectWorld = true
   /\ commands (hostOf (sample_activate projectWorld emptyHost)) =
        [(StartWatching, StartWatchingClosure sample_watcher);
         (StopWatching, StopWatchingClosure sample_watcher);
         (ToggleWatching, ToggleWatchingClosure sample_watcher);
         (UpdateSnapshot, UpdateSnapshotClosure (mkCtrl "vitest.explorer" "Vitest"))]
   /\ runProfiles (hostOf (sample_activate projectWorld emptyHost)) =
        [mkProfile "Run Tests (Watch Mode)" Run (WatchRunHandler sample_watcher) false;
         mkProfile "Run Tests" Run
           (BoundRunHandler (mkCtrl "vitest.explorer" "Vitest") (Some sample_watcher))
           true;
         mkProfile "Debug Tests" Debug
           (BoundDebugHandler (mkCtrl "vitest.explorer" "Vitest")) true]
   /\ reactiveEffects (hostOf (sample_activate projectWorld emptyHost)) =
        [StatusBarEffect sample_watcher NewStatusBarItem])
  /\ (proceeds brokenWorld = true
      /\ commands (hostOf (sample_activate brokenWorld emptyHost)) =
           [(ToggleWatching, WarningClosure disabledMsg);
            (UpdateSnapshot, WarningClosure disabledMsg)]
      /\ runProfiles (hostOf (sample_activate brokenWorld emptyHost)) = []).
Proof.
  split.
  - split; [reflexivity|].
    apply (proj1 (features_registered_by_condition "vitest.explorer" sample_gte
                    sample_stringToCmd sample_stringify projectWorld eq_refl)).
    left. exists "0.12.3". split; [reflexivity|]. split; [discriminate|reflexivity].
  - split; [reflexivity|].
    destruct (proj2 (features_registered_by_condition "vitest.explorer" sample_gte
                       sample_stringToCmd sample_stringify brokenWorld eq_refl))
      as (Hc & Hp & _).
    + intros [(v & Hv & _) | (c & Hc & _)]; discriminate.
    + split; [exact Hc | exact Hp].
Defined.

Lemma probe_rejection_is_reported_witness :
  proceeds brokenWorld = true
  /\ getVitestVersion brokenWorld (chosenCmd brokenWorld)
       (env (getConfig brokenWorld)) = Rejects "Error: spawn npx ENOENT"
  /\ traceOf (sample_activate brokenWorld emptyHost) =
       [Call_createTestController "vitest.explorer" "Vitest";
        Discoverer_new;
        Call_getVitestCommand "/proj";
        Call_getVitestVersion defaultCmd None;
        Log_appendLine "Error: spawn npx ENOENT";
        Log_appendLine "process.env.PATH = undefined";
        Log_appendLine "vitest.nodeEnv = null";
        Call_isNodeAvailable None;
        Log_appendLine "Cannot spawn node process";
        Window_showErrorMessage ("Error: spawn npx ENOENT" ++ nodeHint)%string;
        Console_dir None;
        Window_showWarningMessage disabledMsg;
        Discoverer_discoverTestFromDoc (mkCtrl "vitest.explorer" "Vitest")
          "/proj/a.test.ts"].
Proof.
  split; [reflexivity|]. split; [reflexivity|].
  exact (f_equal (@traceOf unit)
           (probe_rejection_is_reported "vitest.explorer" sample_gte
              sample_stringToCmd sample_stringify brokenWorld eq_refl eq_refl)).
Defined.

Lemma documents_reach_the_discoverer_witness :
  proceeds projectWorld = true
  /\ filter isDiscoverFromDoc (traceOf (sample_activate projectWorld emptyHost)) =
       [Discoverer_discoverTestFromDoc (mkCtrl "vitest.explorer" "Vitest")
          "/proj/a.test.ts";
        Discoverer_discoverTestFromDoc (mkCtrl "vitest.explorer" "Vitest")
          "/proj/b.ts"]
  /\ traceOf (deliver brokenWorld (DidOpenTextDocument "/proj/c.spec.ts")
                (hostOf (sample_activate projectWorld emptyHost))) =
       [Discoverer_discoverTestFromDoc (mkCtrl "vitest.explorer" "Vitest")
          "/proj/c.spec.ts"].
Proof.
  split; [reflexivity|].
  pose proof (documents_reach_the_discoverer "vitest.explorer" sample_gte
                sample_stringToCmd sample_stringify projectWorld eq_refl)
    as [Hvisible Hevents].
  split; [exact Hvisible|].
  exact (proj1 (Hevents _ (active_init _ _ _ _ projectWorld)
                  brokenWorld "/proj/c.spec.ts")).
Defined.

Lemma controller_handlers_witness :
  proceeds projectWorld = true
  /\ active "vitest.explorer" sample_gte sample_stringToCmd sample_stringify
       projectWorld (hostOf (sample_activate projectWorld emptyHost))
  /\ traceOf (deliver projectWorld (ResolveRequest (Some "/proj/a.test.ts"))
                (hostOf (sample_activate projectWorld emptyHost))) =
       [TestFile_updateFromDisk (TestFile "/proj/a.test.ts")
          (mkCtrl "vitest.explorer" "Vitest")]
  /\ traceOf (deliver projectWorld (ResolveRequest (Some "/proj/b.ts"))
                (hostOf (sample_activate projectWorld emptyHost))) = [].
Proof.
  split; [reflexivity|]. split; [apply active_init|].
  pose proof (controller_handlers (h := hostOf (sample_activate projectWorld emptyHost))
                (eq_refl : proceeds projectWorld = true)
                (active_init _ _ _ _ projectWorld) projectWorld)
    as (_ & _ & _ & Hitem).
  split.
  - exact (f_equal (@traceOf unit) (Hitem "/proj/a.test.ts")).
  - exact (f_equal (@traceOf unit) (Hitem "/proj/b.ts")).
Defined.

Lemma watch_profile_request_witness :
  proceeds projectWorld = true
  /\ runEnabled sample_gte (probedVersion projectWorld)
       (commandLine (getConfig projectWorld)) = true
  /\ active "vitest.explorer" sample_gte sample_stringToCmd sample_stringify
       projectWorld (hostOf (sample_activate projectWorld emptyHost))
  /\ traceOf (deliver projectWorld
                (RunRequest "Run Tests (Watch Mode)"
                   (mkRequest (Some ["/proj/a.test.ts"])) Token)
                (hostOf (sample_activate projectWorld emptyHost))) =
       [TestWatcher_watch sample_watcher;
        TestWatcher_runTests sample_watcher (Some ["/proj/a.test.ts"])]
  /\ traceOf (deliver emptyWorld
                (RunRequest "Run Tests (Watch Mode)"
                   (mkRequest (Some ["/proj/a.test.ts"])) Token)
                (hostOf (sample_activate projectWorld emptyHost))) = [].
Proof.
  split; [reflexivity|]. split; [reflexivity|]. split; [apply active_init|].
  pose proof (watch_profile_request
                (h := hostOf (sample_activate projectWorld emptyHost))
                (eq_refl : proceeds projectWorld = true)
                (eq_refl : runEnabled sample_gte (probedVersion projectWorld)
                             (commandLine (getConfig projectWorld)) = true)
                (active_init _ _ _ _ projectWorld)) as Hrun.
  split.
  - exact (f_equal (@traceOf unit)
             (Hrun projectWorld (mkRequest (Some ["/proj/a.test.ts"])) Token)).
  - exact (f_equal (@traceOf unit)
             (Hrun emptyWorld (mkRequest (Some ["/proj/a.test.ts"])) Token)).
Defined.

Lemma oneshot_profiles_witness :
  proceeds projectWorld = true
  /\ runEnabled sample_gte (probedVersion projectWorld)
       (commandLine (getConfig projectWorld)) = true
  /\ active "vitest.explorer" sample_gte sample_stringToCmd sample_stringify
       projectWorld (hostOf (sample_activate projectWorld emptyHost))
  /\ traceOf (deliver projectWorld
                (RunRequest "Run Tests" (mkRequest None) Token)
                (hostOf (sample_activate projectWorld emptyHost))) =
       [Call_runHandler (mkCtrl "vitest.explorer" "Vitest") (Some sample_watcher)
          (mkRequest None) Token]
  /\ traceOf (deliver projectWorld
                (RunRequest "Debug Tests" (mkRequest None) Token)
                (hostOf (sample_activate projectWorld emptyHost))) =
       [Call_debugHandler (mkCtrl "vitest.explorer" "Vitest")
          (mkRequest None) Token].
Proof.
  split; [reflexivity|]. split; [reflexivity|]. split; [apply active_init|].
  pose proof (oneshot_profiles
                (h := hostOf (sample_activate projectWorld emptyHost))
                (eq_refl : proceeds projectWorld = true)
                (eq_refl : runEnabled sample_gte (probedVersion projectWorld)
                             (commandLine (getConfig projectWorld)) = true)
                (active_init _ _ _ _ projectWorld)) as (_ & _ & Hrun).
  split.
  - exact (f_equal (@traceOf unit)
             (proj1 (Hrun projectWorld (mkRequest None) Token))).
  - exact (f_equal (@traceOf unit)
             (proj2 (Hrun projectWorld (mkRequest None) Token))).
Defined.

Lemma activate_is_noop_off_guard_witness :
  workspaceFolders emptyWorld = None
  /\ hostOf (sample_activate emptyWorld emptyHost) = emptyHost
  /\ traceOf (sample_activate emptyWorld emptyHost) = [].
Proof.
  split; [reflexivity|].
  pose proof (activate_is_noop_off_guard "vitest.explorer" sample_gte
                sample_stringToCmd sample_stringify emptyWorld emptyHost
                (or_introl eq_refl)) as (Hhost & _ & Htrace).
  split; [exact Hhost | exact (Htrace eq_refl)].
Defined.


(** ** The further facts at the sample worlds *)

Lemma registrations_are_unique_witness :
  active "vitest.explorer" sample_gte sample_stringToCmd sample_stringify
    projectWorld
    (hostOf (deliver projectWorld (ResolveRequest None)
               (hostOf (sample_activate projectWorld emptyHost))))
  /\ NoDup [StartWatching; StopWatching; ToggleWatching; UpdateSnapshot]
  /\ NoDup ["Run Tests (Watch Mode)"; "Run Tests"; "Debug Tests"].
Proof.
  assert (Hact : active "vitest.explorer" sample_gte sample_stringToCmd
                   sample_stringify projectWorld
                   (hostOf (deliver projectWorld (ResolveRequest None)
                              (hostOf (sample_activate projectWorld emptyHost))))).
  { apply active_step; [apply active_init | discriminate]. }
  split; [exact Hact|].
  exact (registrations_are_unique Hact).
Defined.

Lemma registrations_are_subscribed_witness :
  active "vitest.explorer" sample_gte sample_stringToCmd sample_stringify
    projectWorld
    (hostOf (deliver projectWorld (ResolveRequest None)
               (hostOf (sample_activate projectWorld emptyHost))))
  /\ (exists extra,
        subscriptions
          (hostOf (deliver projectWorld (ResolveRequest None)
                     (hostOf (sample_activate projectWorld emptyHost)))) =
        subscriptions (hostOf (sample_activate projectWorld emptyHost)) ++ extra)
  /\ subscribed
       (hostOf (deliver projectWorld (ResolveRequest None)
                  (hostOf (sample_activate projectWorld emptyHost)))).
Proof.
  assert (Hact : active "vitest.explorer" sample_gte sample_stringToCmd
                   sample_stringify projectWorld
                   (hostOf (deliver projectWorld (ResolveRequest None)
                              (hostOf (sample_activate projectWorld emptyHost))))).
  { apply active_step; [apply active_init | discriminate]. }
  split; [exact Hact|].
  exact (registrations_are_subscribed Hact).
Defined.

Lemma deactivation_disposes_in_order_witness :
  proceeds projectWorld = true
  /\ traceOf (deliver projectWorld Deactivation
                (hostOf (sample_activate projectWorld emptyHost))) =
       [TestWatcher_dispose sample_watcher;
        Configuration_update "testing" "automaticallyOpenPeekView" None;
        TestWatcher_dispose sample_watcher;
        Disposable_dispose (OfStatusBar NewStatusBarItem);
        Disposable_dispose (OfCommand StartWatching);
        Disposable_dispose (OfCommand StopWatching);
        Disposable_dispose (OfCommand ToggleWatching);
        Disposable_dispose (OfCommand UpdateSnapshot);
        Disposable_dispose (OfController (mkCtrl "vitest.explorer" "Vitest"));
        Disposable_dispose (OfDiscoverer NewTestFileDiscoverer);
        Disposable_dispose
          (OfOpenListener
             (DiscoverOpened (mkCtrl "vitest.explorer" "Vitest")
                NewTestFileDiscoverer));
        Disposable_dispose
          (OfChangeListener
             (DiscoverChanged (mkCtrl "vitest.explorer" "Vitest")
                NewTestFileDiscoverer))].
Proof.
  split; [reflexivity|].
  exact (deactivation_disposes_in_order "vitest.explorer" sample_gte
           sample_stringToCmd sample_stringify projectWorld eq_refl projectWorld).
Defined.

Lemma toggle_is_start_or_stop_witness :
  proceeds projectWorld = true
  /\ runEnabled sample_gte (probedVersion projectWorld)
       (commandLine (getConfig projectWorld)) = true
  /\ active "vitest.explorer" sample_gte sample_stringToCmd sample_stringify
       projectWorld (hostOf (sample_activate projectWorld emptyHost))
  /\ traceOf (deliver projectWorld (ExecuteCommand ToggleWatching None)
                (hostOf (sample_activate projectWorld emptyHost))) =
       [TestWatcher_watch sample_watcher;
        Configuration_update "testing" "automaticallyOpenPeekView" (Some "never")].
Proof.
  split; [reflexivity|]. split; [reflexivity|]. split; [apply active_init|].
  pose proof (toggle_is_start_or_stop
                (h := hostOf (sample_activate projectWorld emptyHost))
                (eq_refl : proceeds projectWorld = true)
                (eq_refl : runEnabled sample_gte (probedVersion projectWorld)
                             (commandLine (getConfig projectWorld)) = true)
                (active_init _ _ _ _ projectWorld) projectWorld None)
    as (Htoggle & Hstart & _).
  exact (f_equal (@traceOf unit) (eq_trans Htoggle Hstart)).
Defined.

Lemma commandLine_text_is_ignored_witness :
  truthy "vitest run" = truthy "pnpm exec vitest"
  /\ sample_activate (withCommandLine (Some "vitest run") brokenWorld) emptyHost =
     sample_activate (withCommandLine (Some "pnpm exec vitest") brokenWorld)
       emptyHost.
Proof.
  split; [reflexivity|].
  exact (commandLine_text_is_ignored "vitest.explorer" sample_gte
           sample_stringToCmd sample_stringify
           (Some "vitest run") (Some "pnpm exec vitest") brokenWorld emptyHost
           eq_refl).
Defined.

Lemma disabled_features_are_inert_witness :
  proceeds brokenWorld = true
  /\ runEnabled sample_gte (probedVersion brokenWorld)
       (commandLine (getConfig brokenWorld)) = false
  /\ active "vitest.explorer" sample_gte sample_stringToCmd sample_stringify
       brokenWorld (hostOf (sample_activate brokenWorld emptyHost))
  /\ traceOf (deliver projectWorld (ExecuteCommand StartWatching None)
                (hostOf (sample_activate brokenWorld emptyHost))) = []
  /\ traceOf (deliver projectWorld
                (RunRequest "Run Tests" (mkRequest None) Token)
                (hostOf (sample_activate brokenWorld emptyHost))) = [].
Proof.
  split; [reflexivity|]. split; [reflexivity|]. split; [apply active_init|].
  pose proof (disabled_features_are_inert
                (h := hostOf (sample_activate brokenWorld emptyHost))
                (eq_refl : proceeds brokenWorld = true)
                (eq_refl : runEnabled sample_gte (probedVersion brokenWorld)
                             (commandLine (getConfig brokenWorld)) = false)
                (active_init _ _ _ _ brokenWorld) projectWorld)
    as (Hstart & _ & Hrun & _).
  split.
  - exact (f_equal (@traceOf unit) (Hstart None)).
  - exact (f_equal (@traceOf unit) (Hrun "Run Tests" (mkRequest None) Token)).
Defined.

Lemma watched_files_are_disposed_witness :
  proceeds brokenWorld = true
  /\ active "vitest.explorer" sample_gte sample_stringToCmd sample_stringify
       brokenWorld (hostOf (sample_activate brokenWorld emptyHost))
  /\ traceOf (deliver brokenWorld Deactivation
                (hostOf (deliver projectWorld (ResolveRequest None)
                           (hostOf (sample_activate brokenWorld emptyHost))))) =
       traceOf (deliver brokenWorld Deactivation
                  (hostOf (sample_activate brokenWorld emptyHost)))
       ++ [Disposable_dispose (OfFileWatcher "**/*.test.ts")].
Proof.
  split; [reflexivity|]. split; [apply active_init|].
  exact (watched_files_are_disposed
           (h := hostOf (sample_activate brokenWorld emptyHost))
           (eq_refl : proceeds brokenWorld = true)
           (active_init _ _ _ _ brokenWorld) projectWorld brokenWorld).
Defined.

